(** * Event-ingestion and enrichment pipeline: a shallow embedding

    The repository is a webhook handler written in TypeScript.  A Pub/Sub
    push request carries a base64 payload describing a catalog product; the
    handler decodes and parses it, reads the enrichment flag from the product
    attributes and, when enabled, chains three collaborators: image analysis,
    text generation and the catalog update.

    The embedding follows the source files:
    - [JS]: the fragment of JavaScript values and operators the handlers use;
    - [Eff]: a writer-and-exception monad recording log lines and outgoing calls;
    - [ProductRepository]: [updateProductDescription] (product.repository.ts);
    - [VisionAnalysis]: [getImageData] (the stand-alone handler file);
    - [EventController]: the controller [post] (event.controller.ts);
    - [Monolith]: the [post] of the stand-alone handler file;
    - [DescriptionGeneration]: [generateProductDescription]
      (descriptionGeneration.service.ts);
    - [Standalone]: [generateEnhancedDescription] and the copy of
      [updateProductDescription] of the stand-alone handler file. *)

From Stdlib Require Import List String Ascii Bool ZArith QArith Qround Lia.
From Stdlib Require Import DecimalString.
Import ListNotations.

Set Warnings "-register-all".

Open Scope list_scope.
Open Scope string_scope.

(* ================================================================== *)
(** ** JavaScript values *)

Module JS.

(** A value as [JSON.parse] can produce it, plus [undefined], which the
    handlers obtain from property accesses on missing fields.  An object keeps
    its own properties in insertion order. *)
Inductive value : Type :=
| VUndefined
| VNull
| VBool (b : bool)
| VNumber (q : Q)
| VString (s : string)
| VArray (elems : list value)
| VObject (fields : list (string * value)).

(** What a [throw] carries: an instance of [Error] with its [message], or any
    other value. *)
Inductive thrown : Type :=
| ThrownError (message : string)
| ThrownOther (v : value).

(** Outcome of evaluating an expression or awaiting a promise. *)
Inductive result (A : Type) : Type :=
| Ok (a : A)
| Throw (e : thrown).
Arguments Ok {A} a.
Arguments Throw {A} e.

(** ToBoolean. *)
Definition truthy (v : value) : bool :=
  match v with
  | VUndefined | VNull => false
  | VBool b => b
  | VNumber q => negb (Qeq_bool q 0)
  | VString s => negb (String.eqb s "")
  | VArray _ | VObject _ => true
  end.

Definition nullish (v : value) : bool :=
  match v with
  | VUndefined | VNull => true
  | _ => false
  end.

(** The name an engine prints for a nullish base in its TypeError text. *)
Definition nullish_name (v : value) : string :=
  match v with
  | VNull => "null"
  | _ => "undefined"
  end.

Definition TypeError_read (base : value) (key : string) : thrown :=
  ThrownError ("Cannot read properties of " ++ nullish_name base
               ++ " (reading '" ++ key ++ "')").

(** Own-property lookup of an object literal. *)
Fixpoint own (fields : list (string * value)) (key : string) : value :=
  match fields with
  | [] => VUndefined
  | (k, v) :: rest => if String.eqb k key then v else own rest key
  end.

(** [base.key] for the property names the handlers read ([message], [data],
    [resource], [typeId], [productProjection], [id], [masterVariant],
    [images], [url], [attributes], [name], [value], [version]): none of them
    exists on the prototype of a primitive or of an array, so only an object
    can answer; a nullish base throws. *)
Definition get (base : value) (key : string) : result value :=
  match base with
  | VUndefined | VNull => Throw (TypeError_read base key)
  | VObject fields => Ok (own fields key)
  | _ => Ok VUndefined
  end.

(** [base?.key]. *)
Definition get_opt (base : value) (key : string) : result value :=
  if nullish base then Ok VUndefined else get base key.

(** [base?.[0]]: the first element of an array, the first character of a
    string, the property ["0"] of an object. *)
Definition index0_opt (base : value) : value :=
  match base with
  | VArray (x :: _) => x
  | VString (String c _) => VString (String c EmptyString)
  | VObject fields => own fields "0"
  | _ => VUndefined
  end.

(** [v === 'lit']. *)
Definition strict_eq_string (v : value) (lit : string) : bool :=
  match v with
  | VString s => String.eqb s lit
  | _ => false
  end.

(** [elems.find(attr => attr.name === key)]: the callback throws on a nullish
    element, which aborts the scan. *)
Fixpoint find_by_name (key : string) (elems : list value) : result (option value) :=
  match elems with
  | [] => Ok None
  | attr :: rest =>
      match get attr "name" with
      | Throw e => Throw e
      | Ok n => if strict_eq_string n key then Ok (Some attr)
                else find_by_name key rest
      end
  end.

End JS.

Import JS.

(* ================================================================== *)
(** ** Shared data *)

(** interfaces/imageData.interface: what image analysis hands to text
    generation. *)
Record ImageData : Type := {
  labels : string;
  objects : string;
  colors : list string;
  detectedText : string;
  webEntities : string
}.

(** The object an [ImageData] is when it is placed in a response body. *)
Definition ImageData_to_value (d : ImageData) : value :=
  VObject [("labels", VString (labels d));
           ("objects", VString (objects d));
           ("colors", VArray (map VString (colors d)));
           ("detectedText", VString (detectedText d));
           ("webEntities", VString (webEntities d))].

(** The commercetools SDK's [ClientResponse]: only [body] is read. *)
Record ClientResponse : Type := { body : value }.

(** The HTTP response a handler sends. *)
Record response : Type := { status : nat; payload : value }.

Inductive level : Type := InfoLevel | ErrorLevel.

(** What a run does to the outside world, in order: log lines, the three
    pipeline stages as the controller calls them, and the requests the
    stand-alone functions issue to the vision and catalog clients. *)
Inductive event : Type :=
| Log (lvl : level) (msg : string) (meta : option value)
| ProductAnalysis (imageUrl : value)
| GenerateDescription (imageData : ImageData)
| UpdateDescription (productId : value) (description : string)
| AnnotateImage (imageUri : value)
| ProductsGet (ID : value)
| ProductsPost (ID : value) (body : value).

(** The pipeline-stage invocations of a trace. *)
Definition is_stage (e : event) : bool :=
  match e with
  | ProductAnalysis _ | GenerateDescription _ | UpdateDescription _ _ => true
  | _ => false
  end.

Definition stages (t : list event) : list event := filter is_stage t.

(** The catalog requests of a trace. *)
Definition is_catalog (e : event) : bool :=
  match e with
  | ProductsGet _ | ProductsPost _ _ => true
  | _ => false
  end.

Definition catalog_requests (t : list event) : list event := filter is_catalog t.

(* ================================================================== *)
(** ** Effects: a trace and an exception *)

Module Eff.

(** An async function body: the events it produced and how it ended. *)
Definition M (A : Type) : Type := (list event * result A)%type.

Definition ret {A} (a : A) : M A := ([], Ok a).

Definition bind {A B} (m : M A) (k : A -> M B) : M B :=
  match m with
  | (t, Ok a) => let (t', r) := k a in ((t ++ t')%list, r)
  | (t, Throw e) => (t, Throw e)
  end.

Definition tell (e : event) : M unit := ([e], Ok tt).

(** Evaluating an expression that may throw, or awaiting a settled promise. *)
Definition lift {A} (r : result A) : M A := ([], r).

(** [try { m } catch (error) { h error }]. *)
Definition try_catch {A} (m : M A) (h : thrown -> M A) : M A :=
  match m with
  | (t, Ok a) => (t, Ok a)
  | (t, Throw e) => let (t', r) := h e in ((t ++ t')%list, r)
  end.

Definition trace {A} (m : M A) : list event := fst m.
Definition outcome {A} (m : M A) : result A := snd m.

End Eff.

Import Eff.

Notation "x <- m ;; k" := (bind m (fun x => k))
  (at level 61, m at next level, right associativity).
Notation "m ;; k" := (bind m (fun _ => k))
  (at level 61, right associativity).

(** Sequencing of expressions that may throw. *)
Definition and_then {A B} (r : result A) (k : A -> result B) : result B :=
  match r with
  | Ok a => k a
  | Throw e => Throw e
  end.

Notation "x <-? r ;; k" := (and_then r (fun x => k))
  (at level 61, r at next level, right associativity).

Definition logger_info (msg : string) (meta : option value) : M unit :=
  tell (Log InfoLevel msg meta).

Definition logger_error (msg : string) (meta : option value) : M unit :=
  tell (Log ErrorLevel msg meta).

(* ================================================================== *)
(** ** repository/product/product.repository.ts *)

Module ProductRepository.

(** [createApiRoot()]: the catalog client, reduced to the two requests the
    repository executes on [products().withId({ID})]. *)
Record ApiRoot : Type := {
  get_execute : value -> result ClientResponse;
  post_execute : value -> value -> result ClientResponse
}.

Section Repository.

Variable apiRoot : ApiRoot.

Definition products_get (ID : value) : M ClientResponse :=
  tell (ProductsGet ID) ;; lift (get_execute apiRoot ID).

Definition products_post (ID : value) (request_body : value) : M ClientResponse :=
  tell (ProductsPost ID request_body) ;; lift (post_execute apiRoot ID request_body).

(** The single [ProductSetDescriptionAction]. *)
Definition setDescription (description : string) : value :=
  VObject [("action", VString "setDescription");
           ("description", VObject [("en", VString description)])].

Definition update_body (currentVersion : value) (description : string) : value :=
  VObject [("version", currentVersion);
           ("actions", VArray [setDescription description])].

Definition updateProductDescription (productId : value) (description : string)
  : M ClientResponse :=
  logger_info "✅ Updating product description in Commerce Tools." None ;;
  productResponse <- products_get productId ;;
  let currentProduct := body productResponse in
  currentVersion <- lift (get currentProduct "version") ;;
  updateResponse <- products_post productId (update_body currentVersion description) ;;
  logger_info "✅ Product description updated successfully in Commerce Tools." None ;;
  ret updateResponse.

(** The version the update will carry, when the fetch yields one. *)
Definition fetched_version (productId : value) : result value :=
  productResponse <-? get_execute apiRoot productId ;;
  get (body productResponse) "version".

End Repository.

End ProductRepository.

(* ================================================================== *)
(** ** Image analysis of the stand-alone handler file: [getImageData] *)

(** The fields of the Vision API's [AnnotateImageResponse] that the code
    reads.  An optional field is absent ([None]) when the API left it out. *)
Module Vision.

(** An entry of [labelAnnotations], [textAnnotations] or [webEntities]: the
    code reads only [description]. *)
Record Described : Type := { description : option string }.

(** An entry of [localizedObjectAnnotations]. *)
Record LocalizedObject : Type := { name : option string }.

Record Color : Type := { red : Q; green : Q; blue : Q }.

Record ColorInfo : Type := { color : option Color }.

Record DominantColors : Type := { colors : option (list ColorInfo) }.

Record ImageProperties : Type := { dominantColors : option DominantColors }.

Record WebDetection : Type := { webEntities : option (list Described) }.

Record AnnotateImageResponse : Type := {
  labelAnnotations : option (list Described);
  localizedObjectAnnotations : option (list LocalizedObject);
  imagePropertiesAnnotation : option ImageProperties;
  textAnnotations : option (list Described);
  webDetection : option WebDetection
}.

End Vision.

Module VisionAnalysis.

(** [Array.prototype.join]: an [undefined] or [null] element prints as the
    empty string. *)
Definition join (sep : string) (xs : list (option string)) : string :=
  String.concat sep (map (fun x => match x with Some s => s | None => "" end) xs).

(** [x || fallback] for a string or [undefined] on the left. *)
Definition or_string (x : option string) (fallback : string) : string :=
  match x with
  | Some s => if String.eqb s "" then fallback else s
  | None => fallback
  end.

(** [x || fallback] for an array or [undefined] on the left: an array is
    truthy whatever its length. *)
Definition or_array {A} (x : option (list A)) (fallback : list A) : list A :=
  match x with
  | Some xs => xs
  | None => fallback
  end.

(** [Math.round]: the nearest integer, ties upward. *)
Definition Math_round (q : Q) : Z := Qfloor (q + (1 # 2)).

(** An integer inside a template literal (decimal digits).  Color components
    are finite numbers between 0 and 255: the exponent form JavaScript uses
    from 1e21 on, [NaN] and the infinities are out of their reach and are not
    represented. *)
Definition Number_toString (z : Z) : string := NilZero.string_of_int (Z.to_int z).

(** The [map] callback on a color entry; reading [red] of an absent [color]
    throws.  An absent [color] is [null], as the client library decodes an
    unset message field, and the TypeError names it so. *)
Definition format_color (c : Vision.ColorInfo) : result string :=
  match Vision.color c with
  | None => Throw (TypeError_read VNull "red")
  | Some rgb =>
      Ok (Number_toString (Math_round (Vision.red rgb)) ++ ", "
          ++ Number_toString (Math_round (Vision.green rgb)) ++ ", "
          ++ Number_toString (Math_round (Vision.blue rgb)))
  end.

Fixpoint map_result {A B} (f : A -> result B) (xs : list A) : result (list B) :=
  match xs with
  | [] => Ok []
  | x :: rest =>
      y <-? f x ;;
      ys <-? map_result f rest ;;
      Ok (y :: ys)
  end.

(** [imagePropertiesAnnotation?.dominantColors?.colors]. *)
Definition dominant_colors (r : Vision.AnnotateImageResponse)
  : option (list Vision.ColorInfo) :=
  match Vision.imagePropertiesAnnotation r with
  | None => None
  | Some props =>
      match Vision.dominantColors props with
      | None => None
      | Some dc => Vision.colors dc
      end
  end.

(** [webDetection?.webEntities]. *)
Definition web_entities (r : Vision.AnnotateImageResponse)
  : option (list Vision.Described) :=
  match Vision.webDetection r with
  | None => None
  | Some w => Vision.webEntities w
  end.

(** [textAnnotations?.[0]?.description]. *)
Definition first_text (r : Vision.AnnotateImageResponse) : option string :=
  match Vision.textAnnotations r with
  | Some (t :: _) => Vision.description t
  | _ => None
  end.

(** The object literal [getImageData] returns, from the annotation result. *)
Definition image_data_of (r : Vision.AnnotateImageResponse) : result ImageData :=
  formatted <-? match dominant_colors r with
                | None => Ok None
                | Some cs => cs' <-? map_result format_color (firstn 3 cs) ;; Ok (Some cs')
                end ;;
  Ok {| labels :=
          or_string (option_map (fun ls => join ", " (map Vision.description ls))
                                (Vision.labelAnnotations r))
                    "No labels detected";
        objects :=
          or_string (option_map (fun os => join ", " (map Vision.name os))
                                (Vision.localizedObjectAnnotations r))
                    "No objects detected";
        colors := or_array formatted ["No colors detected"];
        detectedText := or_string (first_text r) "No text detected";
        webEntities :=
          or_string (option_map (fun es => join ", " (map Vision.description (firstn 5 es)))
                                (web_entities r))
                    "No web entities detected" |}.

Section Client.

(** [visionClient.annotateImage], already reduced to the first element of the
    tuple it resolves to. *)
Variable annotateImage : value -> result Vision.AnnotateImageResponse.

Definition getImageData (imageURL : value) : M ImageData :=
  tell (AnnotateImage imageURL) ;;
  r <- lift (annotateImage imageURL) ;;
  lift (image_data_of r).

End Client.

End VisionAnalysis.

(* ================================================================== *)
(** ** What the handlers take from their environment *)

(** [JSON.parse] either yields a value or throws a [SyntaxError], which is an
    [Error]. *)
Inductive parsed : Type :=
| Parsed (v : value)
| SyntaxError (message : string).

(** Node's library functions, left abstract. *)
Record Runtime : Type := {
  (** [Buffer.from(data, 'base64').toString()] for a truthy [data]. *)
  Buffer_from_base64_toString : value -> result string;
  (** [String.prototype.trim]. *)
  String_trim : string -> string;
  JSON_parse : string -> parsed;
  (** The string a value becomes inside a template literal or under
      [String(...)].  Converting an object throws a TypeError when neither its
      [toString] nor its [valueOf] yields a primitive, as for the object
      parsed from the JSON text [{"toString": null}]. *)
  ToString : value -> result string
}.

(** The three pipeline stages as the handler sees them: promises that
    resolve or reject. *)
Record Collaborators : Type := {
  productAnalysis : value -> result ImageData;
  generateProductDescription : ImageData -> result string;
  updateProductDescription : value -> string -> result ClientResponse
}.

(** The Express request, reduced to its parsed body. *)
Record Request : Type := { request_body : value }.

(** [return response.status(code).send(body)]. *)
Definition send (code : nat) (b : value) : M (option response) :=
  ret (Some {| status := code; payload := b |}).

Definition parse (rt : Runtime) (s : string) : result value :=
  match JSON_parse rt s with
  | Parsed v => Ok v
  | SyntaxError message => Throw (ThrownError message)
  end.

(** [pubSubMessage.data ? Buffer.from(pubSubMessage.data, 'base64').toString().trim() : undefined],
    with [None] for [undefined]. *)
Definition decodedData (rt : Runtime) (pubSubMessage : value) : result (option string) :=
  data <-? get pubSubMessage "data" ;;
  if truthy data
  then s <-? Buffer_from_base64_toString rt data ;; Ok (Some (String_trim rt s))
  else Ok None.

(** [!decodedData]. *)
Definition no_data (d : option string) : bool :=
  match d with
  | None => true
  | Some s => String.eqb s ""
  end.

(** [jsonData.productProjection?.id]. *)
Definition productId_of (jsonData : value) : result value :=
  productProjection <-? get jsonData "productProjection" ;;
  get_opt productProjection "id".

(** [jsonData.productProjection?.masterVariant]. *)
Definition masterVariant_of (jsonData : value) : result value :=
  productProjection <-? get jsonData "productProjection" ;;
  get_opt productProjection "masterVariant".

(** [jsonData.productProjection?.masterVariant?.images?.[0]?.url]. *)
Definition imageUrl_of (jsonData : value) : result value :=
  masterVariant <-? masterVariant_of jsonData ;;
  images <-? get_opt masterVariant "images" ;;
  get_opt (index0_opt images) "url".

(** [jsonData.productProjection?.masterVariant?.attributes]. *)
Definition raw_attributes (jsonData : value) : result value :=
  masterVariant <-? masterVariant_of jsonData ;;
  get_opt masterVariant "attributes".

(** [... || []]. *)
Definition or_empty (v : value) : value := if truthy v then v else VArray [].

(** [attributes.find(attr => attr.name === key)?.value]. *)
Definition find_value (key : string) (attributes : value) : result value :=
  match attributes with
  | VArray elems =>
      genDescriptionAttr <-? find_by_name key elems ;;
      match genDescriptionAttr with
      | None => Ok VUndefined
      | Some attr => get attr "value"
      end
  | _ => Throw (ThrownError "attributes.find is not a function")
  end.

(** The pipeline stages, each recorded when it is called. *)
Section Stages.

Variable services : Collaborators.

Definition await_productAnalysis (imageUrl : value) : M ImageData :=
  tell (ProductAnalysis imageUrl) ;; lift (productAnalysis services imageUrl).

Definition await_generateProductDescription (imageData : ImageData) : M string :=
  tell (GenerateDescription imageData) ;;
  lift (generateProductDescription services imageData).

Definition await_updateProductDescription (productId : value) (description : string)
  : M ClientResponse :=
  tell (UpdateDescription productId description) ;;
  lift (updateProductDescription services productId description).

End Stages.

(* ================================================================== *)
(** ** controllers/event.controller.ts *)

Module EventController.

Definition no_data_message : string := "❌ No data found in Pub/Sub message.".
Definition not_enabled_message : string :=
  "❌ The option for automatic description generation is not enabled.".
Definition internal_error_message : string :=
  "❌ Internal server error. Failed to process request.".
Definition unexpected_error_message : string := "❌ Unexpected error occurred.".

(** The enrichment flag of the event: the [value] of the first attribute
    named [generateDescription]. *)
Definition genDescriptionValue (jsonData : value) : result value :=
  raw <-? raw_attributes jsonData ;;
  find_value "generateDescription" (or_empty raw).

Section Handler.

Variable rt : Runtime.
Variable services : Collaborators.

(** The body of the [try] block once the payload is parsed. *)
Definition post_event (jsonData : value) : M (option response) :=
  resource <- lift (get jsonData "resource") ;;
  typeId <- lift (get_opt resource "typeId") ;;
  (if strict_eq_string typeId "product"
   then logger_info "✅ Event message received." None ;;
        logger_info "✅ Processing event message." None
   else ret tt) ;;
  productId <- lift (productId_of jsonData) ;;
  imageUrl <- lift (imageUrl_of jsonData) ;;
  if truthy productId && truthy imageUrl then
    genDescriptionValue <- lift (genDescriptionValue jsonData) ;;
    if negb (strict_eq_string genDescriptionValue "true") then
      logger_info not_enabled_message
        (Some (VObject [("productId", productId); ("imageUrl", imageUrl)])) ;;
      send 200 (VObject [("message", VString not_enabled_message);
                         ("productId", productId);
                         ("imageUrl", imageUrl)])
    else
      logger_info "✅ Sending product image to Vision AI." None ;;
      imageData <- await_productAnalysis services imageUrl ;;
      logger_info "✅ Sending image data to Generative AI." None ;;
      description <- await_generateProductDescription services imageData ;;
      logger_info "✅ Sending image description to Commerce Tools." None ;;
      updateResponse <- await_updateProductDescription services productId description ;;
      logger_info "✅ Process completed successfully." None ;;
      logger_info "⌛ Waiting for next event message." None ;;
      send 200 (VObject [("productId", productId);
                         ("imageUrl", imageUrl);
                         ("description", VString description);
                         ("productAnalysis", ImageData_to_value imageData);
                         ("commerceToolsUpdate", body updateResponse)])
  else
    (* no [else] branch: the function ends without sending anything *)
    ret None.

(** The [try] block. *)
Definition post_try (request : Request) : M (option response) :=
  pubSubMessage <- lift (get (request_body request) "message") ;;
  decoded <- lift (decodedData rt pubSubMessage) ;;
  if no_data decoded then
    logger_error no_data_message None ;;
    send 400 (VObject [("error", VString no_data_message)])
  else
    jsonData <- lift (parse rt (match decoded with Some s => s | None => "" end)) ;;
    post_event jsonData.

(** The [catch] block. *)
Definition post_catch (error : thrown) : M (option response) :=
  match error with
  | ThrownError message =>
      logger_error "❌ Error processing request"
        (Some (VObject [("error", VString message)])) ;;
      send 500 (VObject [("error", VString internal_error_message);
                         ("details", VString message)])
  | ThrownOther v =>
      logger_error "❌ Unexpected error" (Some (VObject [("error", v)])) ;;
      send 500 (VObject [("error", VString unexpected_error_message)])
  end.

Definition post (request : Request) : M (option response) :=
  try_catch (post_try request) post_catch.

End Handler.

End EventController.

(* ================================================================== *)
(** ** The stand-alone handler file: [post] *)

(** This file carries its own copies of the three stages ([getImageData],
    [generateEnhancedDescription], [updateProductDescription]); its [post]
    awaits them in the same order, so they are taken here through the same
    [Collaborators] interface. *)
Module Monolith.

Definition no_message_message : string := "No Pub/Sub message received".
Definition no_data_message : string := "No data found in Pub/Sub message".
Definition missing_ids_message : string := "productId or imageUrl is missing".
Definition not_enabled_message : string :=
  "The option for automatic description generation is not enabled.".
Definition internal_error_message : string :=
  "Internal server error. Failed to process request.".

(** The enrichment flag of the event: the [value] of the first attribute
    named [gen-description]. *)
Definition genDescriptionValue (jsonData : value) : result value :=
  raw <-? raw_attributes jsonData ;;
  find_value "gen-description" (or_empty raw).

Section Handler.

Variable rt : Runtime.
Variable services : Collaborators.

(** The body of the [try] block once the payload is parsed.  Each template
    literal is evaluated, and can throw, before the [logger.info] that takes
    it is called. *)
Definition post_event (jsonData : value) : M (option response) :=
  productId <- lift (productId_of jsonData) ;;
  imageUrl <- lift (imageUrl_of jsonData) ;;
  if negb (truthy productId) || negb (truthy imageUrl) then
    logger_error "productId or imageUrl is missing from the Pub/Sub message data." None ;;
    send 400 (VObject [("error", VString missing_ids_message)])
  else
    productId_text <- lift (ToString rt productId) ;;
    logger_info ("Processing product ID: " ++ productId_text) None ;;
    imageUrl_text <- lift (ToString rt imageUrl) ;;
    logger_info ("Product image URL: " ++ imageUrl_text) None ;;
    genDescriptionValue <- lift (genDescriptionValue jsonData) ;;
    if negb (strict_eq_string genDescriptionValue "true") then
      logger_info not_enabled_message None ;;
      send 200 (VObject [("message", VString not_enabled_message);
                         ("productId", productId);
                         ("imageUrl", imageUrl)])
    else
      imageData <- await_productAnalysis services imageUrl ;;
      description <- await_generateProductDescription services imageData ;;
      logger_info ("Product Description: " ++ description) None ;;
      updateResponse <- await_updateProductDescription services productId description ;;
      body_text <- lift (ToString rt (body updateResponse)) ;;
      logger_info ("Product description updated successfully: " ++ body_text) None ;;
      send 200 (VObject [("productId", productId);
                         ("imageUrl", imageUrl);
                         ("description", VString description);
                         ("imageAnalysis", ImageData_to_value imageData);
                         ("commerceToolsUpdate", body updateResponse)]).

(** The [try] block. *)
Definition post_try (request : Request) : M (option response) :=
  message <- lift (get (request_body request) "message") ;;
  if negb (truthy message) then
    logger_error "No Pub/Sub message received." None ;;
    send 400 (VObject [("error", VString no_message_message)])
  else
    let pubSubMessage := message in
    decoded <- lift (decodedData rt pubSubMessage) ;;
    if no_data decoded then
      logger_error "No data found in Pub/Sub message." None ;;
      send 400 (VObject [("error", VString no_data_message)])
    else
      jsonData <- lift (parse rt (match decoded with Some s => s | None => "" end)) ;;
      post_event jsonData.

(** The [catch] block.  [String(error)] is evaluated before [logger.error]
    is called and can throw in its turn; nothing catches that. *)
Definition post_catch (error : thrown) : M (option response) :=
  match error with
  | ThrownError message =>
      logger_error "Error processing request"
        (Some (VObject [("error", VString message)])) ;;
      send 500 (VObject [("error", VString internal_error_message);
                         ("details", VString message)])
  | ThrownOther v =>
      error_text <- lift (ToString rt v) ;;
      logger_error "Unknown error occurred"
        (Some (VObject [("error", VString error_text)])) ;;
      send 500 (VObject [("error", VString "Internal server error.");
                         ("details", VString "Unknown error occurred")])
  end.

Definition post (request : Request) : M (option response) :=
  try_catch (post_try request) post_catch.

End Handler.

End Monolith.

(* ================================================================== *)
(** ** Concrete environments for running the handlers *)

Module Sample.

(** A runtime whose decoder is the identity on strings, whose [trim] drops
    nothing but turns a single blank into the empty string, whose parser
    knows a few payloads by name, and whose string conversion throws on an
    object with an own [toString]. *)
Definition event_of (productProjection : value) : value :=
  VObject [("resource", VObject [("typeId", VString "product")]);
           ("productProjection", productProjection)].

Definition projection (id : value) (attributes : value) : value :=
  VObject [("id", id);
           ("masterVariant",
            VObject [("images", VArray [VObject [("url", VString "https://x/img.jpg")]]);
                     ("attributes", attributes)])].

Definition attribute (n : string) (v : value) : value :=
  VObject [("name", VString n); ("value", v)].

Definition enabled_event : value :=
  event_of (projection (VString "p-1")
              (VArray [attribute "generateDescription" (VString "true")])).

Definition disabled_event : value :=
  event_of (projection (VString "p-1")
              (VArray [attribute "generateDescription" (VBool true)])).

(** The flag appears twice, after an unrelated attribute. *)
Definition repeated_flag_event : value :=
  event_of (projection (VString "p-1")
              (VArray [attribute "color" (VString "red");
                       attribute "generateDescription" (VString "true");
                       attribute "generateDescription" (VString "false")])).

(** No [attributes] field at all. *)
Definition bare_event : value :=
  event_of (VObject [("id", VString "p-1");
                     ("masterVariant",
                      VObject [("images",
                                VArray [VObject [("url", VString "https://x/img.jpg")]])])]).

(** [enabled_event] with another resource type. *)
Definition enabled_category_event : value :=
  VObject [("resource", VObject [("typeId", VString "category")]);
           ("productProjection",
            projection (VString "p-1")
              (VArray [attribute "generateDescription" (VString "true")]))].

(** [enabled_event] with the flag under the stand-alone handler's key. *)
Definition legacy_enabled_event : value :=
  event_of (projection (VString "p-1")
              (VArray [attribute "gen-description" (VString "true")])).

(** The identifier is the empty string. *)
Definition empty_id_event : value :=
  event_of (projection (VString "")
              (VArray [attribute "generateDescription" (VString "true")])).

(** The identifier is an object that cannot be converted to a string; the
    flag is under the stand-alone handler's key. *)
Definition opaque_id_event : value :=
  event_of (projection (VObject [("toString", VNull)])
              (VArray [attribute "gen-description" (VString "true")])).

(** The attributes hold a [null] entry. *)
Definition null_attribute_event : value :=
  event_of (projection (VString "p-1") (VArray [VNull])).

Definition anonymous_event : value :=
  event_of (VObject [("masterVariant",
              VObject [("images", VArray [VObject [("url", VString "https://x/img.jpg")]])])]).

Definition rt : Runtime :=
  {| Buffer_from_base64_toString :=
       fun data => match data with
                   | VString s => Ok s
                   | _ => Throw (ThrownError "The first argument must be of type string")
                   end;
     String_trim := fun s => if String.eqb s " " then "" else s;
     JSON_parse :=
       fun s => if String.eqb s "enabled" then Parsed enabled_event
                else if String.eqb s "disabled" then Parsed disabled_event
                else if String.eqb s "anonymous" then Parsed anonymous_event
                else if String.eqb s "category" then Parsed enabled_category_event
                else if String.eqb s "legacy" then Parsed legacy_enabled_event
                else if String.eqb s "empty-id" then Parsed empty_id_event
                else if String.eqb s "null-attribute" then Parsed null_attribute_event
                else if String.eqb s "opaque-id" then Parsed opaque_id_event
                else SyntaxError "Unexpected token";
     ToString :=
       fun v => match v with
                | VString s => Ok s
                | VObject fields =>
                    match own fields "toString" with
                    | VUndefined => Ok "[object Object]"
                    | _ => Throw (ThrownError "Cannot convert object to primitive value")
                    end
                | _ => Ok "[object Object]"
                end |}.

Definition envelope (data : value) : Request :=
  {| request_body := VObject [("message", VObject [("data", data)])] |}.

Definition shirt : ImageData :=
  {| labels := "shirt, cotton";
     objects := "Clothing";
     colors := ["255, 255, 255"];
     detectedText := "Brand Name";
     webEntities := "Fashion" |}.

Definition updated : ClientResponse :=
  {| body := VObject [("id", VString "p-1"); ("version", VNumber 2)] |}.

Definition services : Collaborators :=
  {| productAnalysis := fun _ => Ok shirt;
     generateProductDescription := fun _ => Ok "A beautiful cotton shirt.";
     updateProductDescription := fun _ _ => Ok updated |}.

(** Image analysis rejects with an [Error]. *)
Definition vision_down : Collaborators :=
  {| productAnalysis := fun _ => Throw (ThrownError "Vision AI service failed");
     generateProductDescription := fun _ => Ok "A beautiful cotton shirt.";
     updateProductDescription := fun _ _ => Ok updated |}.

(** A catalog whose product is at version 1. *)
Definition catalog : ProductRepository.ApiRoot :=
  {| ProductRepository.get_execute :=
       fun ID => Ok {| body := VObject [("id", ID); ("version", VNumber 1)] |};
     ProductRepository.post_execute := fun _ _ => Ok updated |}.

(** An annotation result whose color list is present and empty. *)
Definition no_colors : Vision.AnnotateImageResponse :=
  {| Vision.labelAnnotations := Some [];
     Vision.localizedObjectAnnotations := Some [];
     Vision.imagePropertiesAnnotation :=
       Some {| Vision.dominantColors := Some {| Vision.colors := Some [] |} |};
     Vision.textAnnotations := Some [];
     Vision.webDetection := Some {| Vision.webEntities := Some [] |} |}.

End Sample.

(* ================================================================== *)
(** ** Vocabulary of the statements *)

(** What a handler run sent back, if anything. *)
Definition sent (m : M (option response)) : option response :=
  match outcome m with
  | Ok r => r
  | Throw _ => None
  end.

(** The payload of the request decodes, after trimming, to the non-empty
    text [s]. *)
Definition decodes_to (rt : Runtime) (request : Request) (s : string) : Prop :=
  exists pubSubMessage,
    get (request_body request) "message" = Ok pubSubMessage /\
    decodedData rt pubSubMessage = Ok (Some s) /\
    s <> "".

(** The payload of the request decodes and parses to the event [jsonData]. *)
Definition delivers (rt : Runtime) (request : Request) (jsonData : value) : Prop :=
  exists s, decodes_to rt request s /\ JSON_parse rt s = Parsed jsonData.

(** The envelope's payload field is absent or empty, or its content is empty
    once decoded and trimmed. *)
Definition missing_payload (rt : Runtime) (pubSubMessage : value) : Prop :=
  exists data,
    get pubSubMessage "data" = Ok data /\
    (truthy data = false \/
     exists s, Buffer_from_base64_toString rt data = Ok s /\ String_trim rt s = "").

(** The event carries a product identifier and an image location. *)
Definition identifies (jsonData productId imageUrl : value) : Prop :=
  productId_of jsonData = Ok productId /\
  imageUrl_of jsonData = Ok imageUrl /\
  truthy productId = true /\
  truthy imageUrl = true.

(** The event lacks the product identifier or the image location. *)
Definition anonymous (jsonData : value) : Prop :=
  exists productId imageUrl,
    productId_of jsonData = Ok productId /\
    imageUrl_of jsonData = Ok imageUrl /\
    (truthy productId = false \/ truthy imageUrl = false).

(** The first failure of the pipeline run for [imageUrl] and [productId]:
    the thrown value and the stage invocations made up to it. *)
Inductive first_failure (services : Collaborators) (imageUrl productId : value)
  : thrown -> list event -> Prop :=
| analysis_fails e :
    productAnalysis services imageUrl = Throw e ->
    first_failure services imageUrl productId e
      [ProductAnalysis imageUrl]
| generation_fails imageData e :
    productAnalysis services imageUrl = Ok imageData ->
    generateProductDescription services imageData = Throw e ->
    first_failure services imageUrl productId e
      [ProductAnalysis imageUrl; GenerateDescription imageData]
| persistence_fails imageData description e :
    productAnalysis services imageUrl = Ok imageData ->
    generateProductDescription services imageData = Ok description ->
    updateProductDescription services productId description = Throw e ->
    first_failure services imageUrl productId e
      [ProductAnalysis imageUrl; GenerateDescription imageData;
       UpdateDescription productId description].

(** The attribute entry can be inspected by the scan, and its name is, or is
    not, the key. *)
Definition named (key : string) (attr : value) : Prop :=
  exists n, get attr "name" = Ok n /\ strict_eq_string n key = true.

Definition not_named (key : string) (attr : value) : Prop :=
  exists n, get attr "name" = Ok n /\ strict_eq_string n key = false.

(** Two parsed events with the same top-level fields except, possibly,
    [resource]; events that differ only in [resource.typeId] are of this kind. *)
Definition same_outside_resource (j1 j2 : value) : Prop :=
  exists f1 f2,
    j1 = VObject f1 /\ j2 = VObject f2 /\
    forall key, key <> "resource" -> own f1 key = own f2 key.

Definition is_log (e : event) : bool :=
  match e with
  | Log _ _ _ => true
  | _ => false
  end.

(** A trace without its log lines. *)
Definition unlogged (t : list event) : list event :=
  filter (fun e => negb (is_log e)) t.

(* ================================================================== *)
(** ** services/generative-ai/descriptionGeneration.service.ts *)

Module DescriptionGeneration.

Definition nl : string := String (ascii_of_nat 10) EmptyString.
Definition dquote : string := String (ascii_of_nat 34) EmptyString.

(** What [model.generateContent] resolves to; [response.text()] is a call
    and may throw in its turn. *)
Record GenerateContentResult : Type := { response_text : result string }.

(** The template literal [prompt]. *)
Definition prompt (imageData : ImageData) : string :=
  String.concat ""
    [nl;
     "        As an expert e-commerce product copywriter, craft a captivating product description based on the following image analysis for an apparel item:";
     nl;
     "        Labels: ";
     labels imageData;
     nl;
     "        Objects detected: ";
     objects imageData;
     nl;
     "        Dominant colors: ";
     String.concat ", " (colors imageData);
     nl;
     "        Text detected: ";
     detectedText imageData;
     nl;
     "        Web entities: ";
     webEntities imageData;
     nl;
     nl;
     "        Guidelines:";
     nl;
     "        1. Use a professional, engaging tone suitable for e-commerce.";
     nl;
     "        2. Specify the target category of the apparel (e.g., men's, women's, kids', boys', or girls').";
     nl;
     "        3. Highlight the apparel's key features, such as style, fit, and comfort, and how they cater to the target category.";
     nl;
     "        4. Describe the fabric confidently, focusing on its smoothness, breathability, or comfort (avoid uncertain phrases like ";
     dquote;
     "while not specified";
     dquote;
     ").";
     nl;
     "        5. If colors are not properly detected, describe them in an appealing way (e.g., 'a crisp light color' or 'a subtle neutral tone'). If colors are detected, focus on other attributes of the apparel.";
     nl;
     "        6. Suggest suitable occasions for wearing the item, such as casual outings, formal events, or workouts, and how it fits within the lifestyle of the target category.";
     nl;
     "        7. Emphasize any unique styling possibilities, such as pairing with accessories or layering options.";
     nl;
     "        8. Include care instructions if relevant (e.g., machine washable, hand wash recommended).";
     nl;
     "        9. Keep the description concise but descriptive, within 100-150 words.";
     nl;
     "        10. Include relevant sizing, fit information, or recommendations based on the detected elements, if available.";
     nl;
     "        11. Additionally, generate a 'Key Features' section summarizing the apparel's key attributes, focusing on fabric, fit, and versatility.";
     nl;
     "        ";
     nl;
     "        Please ensure no text styling such as bold (";
     "**), italics (";
     "*), or underlining (_) is used in the description or key features section.";
     nl;
     "    "].

Section Service.

(** [model.generateContent] of config/ai.config. *)
Variable generateContent : string -> result GenerateContentResult.

(** The [stack] of an [Error], which [thrown] does not carry. *)
Variable Error_stack : string -> value.

(** The object literal logged in the [catch] block:
    [{ error: error.message, stack: error.stack, modelName: ... }]. *)
Definition error_details (error : thrown) : result value :=
  match error with
  | ThrownError message =>
      Ok (VObject [("error", VString message);
                   ("stack", Error_stack message);
                   ("modelName", VString "gemini-1.5-flash-002")])
  | ThrownOther v =>
      message <-? get v "message" ;;
      stack <-? get v "stack" ;;
      Ok (VObject [("error", message);
                   ("stack", stack);
                   ("modelName", VString "gemini-1.5-flash-002")])
  end.

Definition generateProductDescription (imageData : ImageData) : M string :=
  logger_info "✅ Starting Generative AI for processing image data." None ;;
  let prompt := prompt imageData in
  try_catch
    (logger_info "✅ Sending prompt to Generative AI." None ;;
     result <- lift (generateContent prompt) ;;
     generatedDescription <- lift (response_text result) ;;
     logger_info "✅ Generative AI processing completed." None ;;
     ret generatedDescription)
    (fun error =>
       details <- lift (error_details error) ;;
       logger_error "❌ Detailed error in Google Generative AI processing:"
         (Some details) ;;
       lift (Throw error)).

End Service.

End DescriptionGeneration.

(* ================================================================== *)
(** ** The stand-alone handler file: its own pipeline stages *)

(** The fields of the Vertex AI chat result that the code reads. *)
Module Vertex.

Record Part : Type := { text : option string }.

Record Content : Type := { parts : option (list Part) }.

Record Candidate : Type := { content : option Content }.

Record GenerateContentResponse : Type := { candidates : option (list Candidate) }.

Record GenerateContentResult : Type := { response : option GenerateContentResponse }.

End Vertex.

Module Standalone.

Definition nl : string := DescriptionGeneration.nl.
Definition dquote : string := DescriptionGeneration.dquote.

(** The template literal of [prompt.text]. *)
Definition prompt_text (imageData : ImageData) : string :=
  String.concat ""
    ["As an expert e-commerce product copywriter, craft a captivating product description based on the following image analysis for an apparel item:";
     nl;
     "        Labels: ";
     labels imageData;
     nl;
     "        Objects detected: ";
     objects imageData;
     nl;
     "        Dominant colors: ";
     String.concat ", " (colors imageData);
     nl;
     "        Text detected: ";
     detectedText imageData;
     nl;
     "        Web entities: ";
     webEntities imageData;
     nl;
     "    ";
     nl;
     "        Guidelines:";
     nl;
     "        1. Use a professional, engaging tone suitable for e-commerce.";
     nl;
     "        2. Specify the target category of the apparel (e.g., men's, women's, kids', boys', or girls').";
     nl;
     "        3. Highlight the apparel's key features, such as style, fit, and comfort, and how they cater to the target category.";
     nl;
     "        4. Describe the fabric confidently, focusing on its smoothness, breathability, or comfort (avoid uncertain phrases like ";
     dquote;
     "while not specified";
     dquote;
     ").";
     nl;
     "        5. If colors are not properly detected, describe them in an appealing way (e.g., 'a crisp light color' or 'a subtle neutral tone'). If colors are detected, focus on other attributes of the apparel.";
     nl;
     "        6. Suggest suitable occasions for wearing the item, such as casual outings, formal events, or workouts, and how it fits within the lifestyle of the target category.";
     nl;
     "        7. Emphasize any unique styling possibilities, such as pairing with accessories or layering options.";
     nl;
     "        8. Include care instructions if relevant (e.g., machine washable, hand wash recommended).";
     nl;
     "        9. Keep the description concise but descriptive, within 100-150 words.";
     nl;
     "        10. Include relevant sizing, fit information, or recommendations based on the detected elements, if available.";
     nl;
     "        11. Additionally, generate a 'Key Features' section summarizing the apparel's key attributes, focusing on fabric, fit, and versatility.";
     nl;
     "        ";
     nl;
     "        Please ensure no text styling such as bold (";
     "**), italics (";
     "*), or underlining (_) is used in the description or key features section."].

(** [result.response?.candidates?.[0]?.content?.parts?.[0]?.text]. *)
Definition first_part_text (r : Vertex.GenerateContentResult) : option string :=
  match Vertex.response r with
  | None => None
  | Some resp =>
      match Vertex.candidates resp with
      | Some (candidate :: _) =>
          match Vertex.content candidate with
          | None => None
          | Some c =>
              match Vertex.parts c with
              | Some (part :: _) => Vertex.text part
              | _ => None
              end
          end
      | _ => None
      end
  end.

Definition no_valid_response : thrown :=
  ThrownError "No valid response received from the model".

Section Functions.

(** [chat.sendMessage([prompt])] on a fresh chat, by the text of the prompt. *)
Variable sendMessage : string -> result Vertex.GenerateContentResult.

Variable apiRoot : ProductRepository.ApiRoot.

Definition generateEnhancedDescription (imageData : ImageData) : M string :=
  r <- lift (sendMessage (prompt_text imageData)) ;;
  match first_part_text r with
  | Some t => if String.eqb t "" then lift (Throw no_valid_response) else ret t
  | None => lift (Throw no_valid_response)
  end.

(** The copy of the repository function, without its log lines. *)
Definition updateProductDescription (productId : value) (description : string)
  : M ClientResponse :=
  productResponse <- ProductRepository.products_get apiRoot productId ;;
  let currentProduct := body productResponse in
  currentVersion <- lift (get currentProduct "version") ;;
  ProductRepository.products_post apiRoot productId
    (ProductRepository.update_body currentVersion description).

End Functions.

End Standalone.

(** The three stages as the stand-alone [post] awaits them: the functions of
    its own file, over the vision, chat and catalog clients. *)
Definition standalone_services
    (annotateImage : value -> result Vision.AnnotateImageResponse)
    (sendMessage : string -> result Vertex.GenerateContentResult)
    (apiRoot : ProductRepository.ApiRoot) : Collaborators :=
  Build_Collaborators
    (fun imageUrl => outcome (VisionAnalysis.getImageData annotateImage imageUrl))
    (fun imageData => outcome (Standalone.generateEnhancedDescription sendMessage imageData))
    (fun productId description =>
       outcome (Standalone.updateProductDescription apiRoot productId description)).

(** The stages as the controller imports them: the generation service and the
    repository of this repository over their clients, and the analysis
    service, whose module is given. *)
Definition controller_services
    (analysis : value -> result ImageData)
    (generateContent : string -> result DescriptionGeneration.GenerateContentResult)
    (Error_stack : string -> value)
    (apiRoot : ProductRepository.ApiRoot) : Collaborators :=
  Build_Collaborators
    analysis
    (fun imageData =>
       outcome (DescriptionGeneration.generateProductDescription
                  generateContent Error_stack imageData))
    (fun productId description =>
       outcome (ProductRepository.updateProductDescription apiRoot productId description)).

(* ================================================================== *)
(** ** Outcomes of a request *)

(** The body the controller's [catch] block sends for a thrown value. *)
Definition failure_payload (e : thrown) : value :=
  match e with
  | ThrownError message =>
      VObject [("error", VString EventController.internal_error_message);
               ("details", VString message)]
  | ThrownOther _ =>
      VObject [("error", VString EventController.unexpected_error_message)]
  end.

(** The value can be converted to a string. *)
Definition printable (rt : Runtime) (v : value) : Prop :=
  exists text, ToString rt v = Ok text.

(** How the stand-alone handler ends once its [try] block has thrown [e]: it
    answers 500, unless [e] is not an [Error] and converting it to a string
    throws, in which case the handler rejects with that second error. *)
Definition monolith_caught (rt : Runtime) (e : thrown) (m : M (option response)) : Prop :=
  match e with
  | ThrownError message =>
      sent m = Some {| status := 500;
                       payload := VObject [("error",
                                            VString Monolith.internal_error_message);
                                           ("details", VString message)] |}
  | ThrownOther v =>
      match ToString rt v with
      | Ok _ =>
          sent m = Some {| status := 500;
                           payload := VObject [("error", VString "Internal server error.");
                                               ("details",
                                                VString "Unknown error occurred")] |}
      | Throw e' => outcome m = Throw e'
      end
  end.

(** A run that, whenever it returns, has sent a response of status 200, 400
    or 500. *)
Definition answers (m : M (option response)) : Prop :=
  forall r,
    outcome m = Ok r ->
    exists resp,
      r = Some resp
      /\ (status resp = 200%nat \/ status resp = 400%nat \/ status resp = 500%nat).

Definition skip_payload (message : string) (productId imageUrl : value) : value :=
  VObject [("message", VString message);
           ("productId", productId);
           ("imageUrl", imageUrl)].

(** The ways a request to the controller can end: the stage invocations it
    made and the response it sent, if any. *)
Inductive controller_outcome (rt : Runtime) (services : Collaborators) (request : Request)
  : list event -> option response -> Prop :=
| no_payload :
    controller_outcome rt services request []
      (Some {| status := 400;
               payload := VObject [("error", VString EventController.no_data_message)] |})
| thrown_early e :
    controller_outcome rt services request []
      (Some {| status := 500; payload := failure_payload e |})
| dropped jsonData :
    delivers rt request jsonData ->
    anonymous jsonData ->
    controller_outcome rt services request [] None
| skipped jsonData productId imageUrl flag :
    delivers rt request jsonData ->
    identifies jsonData productId imageUrl ->
    EventController.genDescriptionValue jsonData = Ok flag ->
    flag <> VString "true" ->
    controller_outcome rt services request []
      (Some {| status := 200;
               payload := skip_payload EventController.not_enabled_message
                            productId imageUrl |})
| failed jsonData productId imageUrl e invoked :
    delivers rt request jsonData ->
    identifies jsonData productId imageUrl ->
    EventController.genDescriptionValue jsonData = Ok (VString "true") ->
    first_failure services imageUrl productId e invoked ->
    controller_outcome rt services request invoked
      (Some {| status := 500; payload := failure_payload e |})
| enriched jsonData productId imageUrl imageData description updateResponse :
    delivers rt request jsonData ->
    identifies jsonData productId imageUrl ->
    EventController.genDescriptionValue jsonData = Ok (VString "true") ->
    productAnalysis services imageUrl = Ok imageData ->
    generateProductDescription services imageData = Ok description ->
    updateProductDescription services productId description = Ok updateResponse ->
    controller_outcome rt services request
      [ProductAnalysis imageUrl; GenerateDescription imageData;
       UpdateDescription productId description]
      (Some {| status := 200;
               payload := VObject [("productId", productId);
                                   ("imageUrl", imageUrl);
                                   ("description", VString description);
                                   ("productAnalysis", ImageData_to_value imageData);
                                   ("commerceToolsUpdate", body updateResponse)] |}).

(** Log lines at error level. *)
Definition is_error_log (e : event) : bool :=
  match e with
  | Log ErrorLevel _ _ => true
  | _ => false
  end.

(* ================================================================== *)
(** ** Concrete clients for running the stages *)

Module Cases.

Definition white : Vision.ColorInfo :=
  {| Vision.color := Some {| Vision.red := 255; Vision.green := 255; Vision.blue := 255 |} |}.

Definition grey : Vision.ColorInfo :=
  {| Vision.color := Some {| Vision.red := 127 # 2; Vision.green := 64; Vision.blue := 64 |} |}.

Definition colorless : Vision.ColorInfo := {| Vision.color := None |}.

Definition entity (d : string) : Vision.Described := {| Vision.description := Some d |}.

(** Four colors, the last of which is malformed, and six web entities. *)
Definition rich : Vision.AnnotateImageResponse :=
  {| Vision.labelAnnotations := Some [entity "shirt"; entity "cotton"];
     Vision.localizedObjectAnnotations := Some [{| Vision.name := Some "Clothing" |}];
     Vision.imagePropertiesAnnotation :=
       Some {| Vision.dominantColors :=
                 Some {| Vision.colors := Some [white; grey; white; colorless] |} |};
     Vision.textAnnotations := None;
     Vision.webDetection :=
       Some {| Vision.webEntities :=
                 Some [entity "a"; entity "b"; entity "c"; entity "d"; entity "e";
                       entity "f"] |} |}.

(** [rich] with a seventh web entity. *)
Definition richer : Vision.AnnotateImageResponse :=
  {| Vision.labelAnnotations := Some [entity "shirt"; entity "cotton"];
     Vision.localizedObjectAnnotations := Some [{| Vision.name := Some "Clothing" |}];
     Vision.imagePropertiesAnnotation :=
       Some {| Vision.dominantColors :=
                 Some {| Vision.colors := Some [white; grey; white; colorless] |} |};
     Vision.textAnnotations := None;
     Vision.webDetection :=
       Some {| Vision.webEntities :=
                 Some [entity "a"; entity "b"; entity "c"; entity "d"; entity "e";
                       entity "f"; entity "g"] |} |}.

Definition rich_data : ImageData :=
  {| labels := "shirt, cotton";
     objects := "Clothing";
     colors := ["255, 255, 255"; "64, 64, 64"; "255, 255, 255"];
     detectedText := "No text detected";
     webEntities := "a, b, c, d, e" |}.

Definition annotateImage (imageUri : value) : result Vision.AnnotateImageResponse :=
  Ok rich.

Definition answer (t : option string) : Vertex.GenerateContentResult :=
  {| Vertex.response :=
       Some {| Vertex.candidates :=
                 Some [{| Vertex.content :=
                            Some {| Vertex.parts := Some [{| Vertex.text := t |}] |} |}] |} |}.

(** A chat that answers with a text, and one that answers with an empty one. *)
Definition chat (prompt : string) : result Vertex.GenerateContentResult :=
  Ok (answer (Some "A beautiful cotton shirt.")).

Definition silent_chat (prompt : string) : result Vertex.GenerateContentResult :=
  Ok (answer (Some "")).

(** The generative model of the service: one that answers, one that rejects
    with an [Error], one that rejects with [undefined]. *)
Definition model (prompt : string) : result DescriptionGeneration.GenerateContentResult :=
  Ok {| DescriptionGeneration.response_text := Ok "A beautiful cotton shirt." |}.

Definition failing_model (prompt : string)
  : result DescriptionGeneration.GenerateContentResult :=
  Throw (ThrownError "Generation failed").

Definition void_model (prompt : string)
  : result DescriptionGeneration.GenerateContentResult :=
  Throw (ThrownOther VUndefined).

Definition Error_stack (message : string) : value := VString ("Error: " ++ message).

(** Image analysis rejects with an object that cannot be converted to a
    string. *)
Definition unprintable_rejection : Collaborators :=
  {| productAnalysis := fun _ => Throw (ThrownOther (VObject [("toString", VNull)]));
     generateProductDescription := fun _ => Ok "A beautiful cotton shirt.";
     updateProductDescription := fun _ _ => Ok Sample.updated |}.

(** A catalog that answers the fetch with a [null] body. *)
Definition lost_catalog : ProductRepository.ApiRoot :=
  {| ProductRepository.get_execute := fun _ => Ok {| body := VNull |};
     ProductRepository.post_execute := fun _ _ => Ok Sample.updated |}.

End Cases.

(* ================================================================== *)
(** ** The monad and the JavaScript operators *)

Lemma bind_lift_ok {A B} (a : A) (k : A -> M B) :
  bind (lift (Ok a)) k = k a.
Proof. unfold bind, lift. destruct (k a); reflexivity. Qed.

Lemma bind_tell {B} (e : event) (k : unit -> M B) :
  bind (tell e) k = (e :: trace (k tt), outcome (k tt)).
Proof. unfold bind, tell. destruct (k tt); reflexivity. Qed.

Lemma bind_ret {A B} (a : A) (k : A -> M B) :
  bind (ret a) k = k a.
Proof. unfold bind, ret. destruct (k a); reflexivity. Qed.

Lemma get_opt_total (base : value) (key : string) :
  exists v, get_opt base key = Ok v.
Proof. unfold get_opt, get. destruct base; simpl; eauto. Qed.

Lemma get_object (fields : list (string * value)) (key : string) :
  get (VObject fields) key = Ok (own fields key).
Proof. reflexivity. Qed.

Lemma strict_eq_string_true (v : value) (lit : string) :
  strict_eq_string v lit = true <-> v = VString lit.
Proof.
  split.
  - destruct v; simpl; try discriminate.
    intros H. apply String.eqb_eq in H. now subst.
  - intros ->. simpl. apply String.eqb_refl.
Qed.

Lemma strict_eq_string_false (v : value) (lit : string) :
  v <> VString lit -> strict_eq_string v lit = false.
Proof.
  intros H. destruct (strict_eq_string v lit) eqn:E; [|reflexivity].
  apply strict_eq_string_true in E. contradiction.
Qed.

(** The scan stops at the first entry that carries the key. *)
Lemma find_by_name_first (key : string) (before : list value) (attr : value)
      (after : list value) :
  Forall (not_named key) before ->
  named key attr ->
  find_by_name key (before ++ attr :: after) = Ok (Some attr).
Proof.
  intros Hbefore [n [Hn Heq]].
  induction Hbefore as [|x xs [m [Hm Hneq]] _ IH]; simpl.
  - rewrite Hn, Heq. reflexivity.
  - rewrite Hm, Hneq. exact IH.
Qed.

(** Without an entry that carries the key the scan finds nothing. *)
Lemma find_by_name_none (key : string) (elems : list value) :
  Forall (not_named key) elems ->
  find_by_name key elems = Ok None.
Proof.
  induction 1 as [|x xs [m [Hm Hneq]] _ IH]; simpl.
  - reflexivity.
  - rewrite Hm, Hneq. exact IH.
Qed.

(** The scan cannot throw on entries that are not nullish. *)
Lemma find_by_name_total (key : string) (elems : list value) :
  Forall (fun attr => nullish attr = false) elems ->
  exists found, find_by_name key elems = Ok found.
Proof.
  induction 1 as [|x xs Hx _ [found IH]]; simpl.
  - eauto.
  - destruct x; try discriminate Hx; simpl;
      try (rewrite IH; eauto);
      destruct (strict_eq_string _ key); eauto.
Qed.

(** What the scan finds is one of the entries, is not nullish and carries
    the key. *)
Lemma find_by_name_sound (key : string) (elems : list value) (attr : value) :
  find_by_name key elems = Ok (Some attr) ->
  In attr elems /\ named key attr.
Proof.
  induction elems as [|x xs IH]; simpl; [discriminate|].
  destruct (get x "name") as [n|e] eqn:Hn; [|discriminate].
  destruct (strict_eq_string n key) eqn:Heq.
  - intros H. injection H as <-. split; [now left|]. exists n. auto.
  - intros H. destruct (IH H) as [Hin Hnamed]. split; [now right|exact Hnamed].
Qed.

(* ================================================================== *)
(** ** The controller, stage by stage *)

Section ControllerFacts.

Variable rt : Runtime.
Variable services : Collaborators.

Lemma no_data_nonempty (s : string) : s <> "" -> no_data (Some s) = false.
Proof. intros H. simpl. now apply String.eqb_neq. Qed.

(** Once the payload is parsed the handler is its event stage under the
    [catch] block. *)
Lemma post_delivered (request : Request) (jsonData : value) :
  delivers rt request jsonData ->
  EventController.post rt services request
  = try_catch (EventController.post_event services jsonData)
              EventController.post_catch.
Proof.
  intros [s [[pubSubMessage [Hm [Hd Hs]]] Hp]].
  unfold EventController.post, EventController.post_try.
  rewrite Hm, bind_lift_ok, Hd, bind_lift_ok, (no_data_nonempty s Hs).
  unfold parse. rewrite Hp, bind_lift_ok. reflexivity.
Qed.

Lemma event_is_not_nullish (jsonData productId : value) :
  productId_of jsonData = Ok productId ->
  exists resource, get jsonData "resource" = Ok resource.
Proof.
  destruct jsonData; simpl; try discriminate; eauto.
Qed.

End ControllerFacts.

(** Unfolds the event stage up to the resource check and splits on it. *)
Ltac enter_event Hid :=
  let resource := fresh "resource" in
  let Hres := fresh "Hres" in
  let typeId := fresh "typeId" in
  let Htype := fresh "Htype" in
  destruct (event_is_not_nullish _ _ Hid) as [resource Hres];
  destruct (get_opt_total resource "typeId") as [typeId Htype];
  unfold EventController.post_event;
  rewrite Hres, bind_lift_ok, Htype, bind_lift_ok;
  destruct (strict_eq_string typeId "product").

(* ================================================================== *)
(** ** The enrichment pipeline *)

(** C1.  A request whose event carries a product identifier and an image
    location and whose enrichment flag is exactly the string "true" invokes
    image analysis once with the image location, text generation once with
    the analysis it returned, persistence once with the product identifier
    and the generated description, in this order and nothing else; the
    response is 200 and its body holds productId, imageUrl, description,
    productAnalysis and commerceToolsUpdate with the values the collaborators
    returned. *)
Theorem enriching_request_runs_pipeline
    (rt : Runtime) (services : Collaborators) (request : Request)
    (jsonData productId imageUrl : value)
    (imageData : ImageData) (description : string) (updateResponse : ClientResponse) :
  delivers rt request jsonData ->
  identifies jsonData productId imageUrl ->
  EventController.genDescriptionValue jsonData = Ok (VString "true") ->
  productAnalysis services imageUrl = Ok imageData ->
  generateProductDescription services imageData = Ok description ->
  updateProductDescription services productId description = Ok updateResponse ->
  stages (trace (EventController.post rt services request))
  = [ProductAnalysis imageUrl;
     GenerateDescription imageData;
     UpdateDescription productId description]
  /\ sent (EventController.post rt services request)
     = Some {| status := 200;
               payload := VObject [("productId", productId);
                                   ("imageUrl", imageUrl);
                                   ("description", VString description);
                                   ("productAnalysis", ImageData_to_value imageData);
                                   ("commerceToolsUpdate", body updateResponse)] |}.
Proof.
  intros Hdel (Hid & Hurl & Tid & Turl) Hflag Han Hgen Hupd.
  rewrite (post_delivered rt services request jsonData Hdel).
  enter_event Hid;
    rewrite ?bind_tell, ?bind_ret, Hid, bind_lift_ok, Hurl, bind_lift_ok, Tid, Turl,
      Hflag, bind_lift_ok;
    unfold await_productAnalysis, await_generateProductDescription,
      await_updateProductDescription;
    cbn -[String.append ImageData_to_value];
    rewrite Han; cbn -[ImageData_to_value]; rewrite Hgen; cbn -[ImageData_to_value];
    rewrite Hupd; cbn -[ImageData_to_value]; split; reflexivity.
Qed.

Lemma enriching_request_runs_pipeline_witness :
  stages (trace (EventController.post Sample.rt Sample.services
                   (Sample.envelope (VString "enabled"))))
  = [ProductAnalysis (VString "https://x/img.jpg");
     GenerateDescription Sample.shirt;
     UpdateDescription (VString "p-1") "A beautiful cotton shirt."]
  /\ sent (EventController.post Sample.rt Sample.services
             (Sample.envelope (VString "enabled")))
     = Some {| status := 200;
               payload := VObject [("productId", VString "p-1");
                                   ("imageUrl", VString "https://x/img.jpg");
                                   ("description", VString "A beautiful cotton shirt.");
                                   ("productAnalysis", ImageData_to_value Sample.shirt);
                                   ("commerceToolsUpdate", body Sample.updated)] |}.
Proof.
  apply (enriching_request_runs_pipeline Sample.rt Sample.services
           (Sample.envelope (VString "enabled")) Sample.enabled_event).
  - exists "enabled". split; [|reflexivity].
    exists (VObject [("data", VString "enabled")]).
    split; [reflexivity|]. split; [reflexivity|discriminate].
  - repeat split; reflexivity.
  - reflexivity.
  - reflexivity.
  - reflexivity.
  - reflexivity.
Defined.

(* ================================================================== *)
(** ** The enrichment gate *)

(** C3.  A request whose event carries a product identifier and an image
    location, and whose enrichment flag is any value other than the string
    "true", invokes no collaborator and is answered 200 with the skip
    acknowledgement: a message, productId and imageUrl. *)
Theorem disabled_flag_skips
    (rt : Runtime) (services : Collaborators) (request : Request)
    (jsonData productId imageUrl flag : value) :
  delivers rt request jsonData ->
  identifies jsonData productId imageUrl ->
  EventController.genDescriptionValue jsonData = Ok flag ->
  flag <> VString "true" ->
  stages (trace (EventController.post rt services request)) = []
  /\ sent (EventController.post rt services request)
     = Some {| status := 200;
               payload := VObject [("message",
                                    VString EventController.not_enabled_message);
                                   ("productId", productId);
                                   ("imageUrl", imageUrl)] |}.
Proof.
  intros Hdel (Hid & Hurl & Tid & Turl) Hflag Hne.
  apply strict_eq_string_false in Hne.
  rewrite (post_delivered rt services request jsonData Hdel).
  enter_event Hid;
    rewrite ?bind_tell, ?bind_ret, Hid, bind_lift_ok, Hurl, bind_lift_ok, Tid, Turl,
      Hflag, bind_lift_ok, Hne;
    split; reflexivity.
Qed.

Lemma disabled_flag_skips_witness :
  stages (trace (EventController.post Sample.rt Sample.services
                   (Sample.envelope (VString "disabled")))) = []
  /\ sent (EventController.post Sample.rt Sample.services
             (Sample.envelope (VString "disabled")))
     = Some {| status := 200;
               payload := VObject [("message",
                                    VString EventController.not_enabled_message);
                                   ("productId", VString "p-1");
                                   ("imageUrl", VString "https://x/img.jpg")] |}.
Proof.
  apply (disabled_flag_skips Sample.rt Sample.services
           (Sample.envelope (VString "disabled")) Sample.disabled_event
           (VString "p-1") (VString "https://x/img.jpg") (VBool true)).
  - exists "disabled". split; [|reflexivity].
    exists (VObject [("data", VString "disabled")]).
    split; [reflexivity|]. split; [reflexivity|discriminate].
  - repeat split; reflexivity.
  - reflexivity.
  - discriminate.
Defined.

(** The gate tests the identifier and the image location for truthiness: an
    empty identifier counts as an absent one. *)
Example empty_identifier_counts_as_absent :
  anonymous Sample.empty_id_event.
Proof.
  exists (VString ""), (VString "https://x/img.jpg").
  repeat split; try reflexivity. now left.
Qed.

(** The flag can only be read from attributes that are an array without
    [null] entries; otherwise the scan throws and the request ends in the
    [catch] block. *)
Example null_attribute_is_internal_error :
  sent (EventController.post Sample.rt Sample.services
          (Sample.envelope (VString "null-attribute")))
  = Some {| status := 500;
            payload :=
              VObject [("error", VString EventController.internal_error_message);
                       ("details",
                        VString "Cannot read properties of null (reading 'name')")] |}.
Proof. reflexivity. Qed.

(* ================================================================== *)
(** ** Decoding and parsing failures *)

(** X30.  A body whose [message] wrapper is present (not [null] or
    [undefined]) and whose payload field is absent or empty, or whose payload
    is empty once decoded and trimmed, is answered 400 with the fixed
    missing-payload message, and no collaborator is invoked. *)
Theorem missing_payload_is_rejected
    (rt : Runtime) (services : Collaborators) (request : Request)
    (pubSubMessage : value) :
  get (request_body request) "message" = Ok pubSubMessage ->
  missing_payload rt pubSubMessage ->
  stages (trace (EventController.post rt services request)) = []
  /\ sent (EventController.post rt services request)
     = Some {| status := 400;
               payload := VObject [("error",
                                    VString "❌ No data found in Pub/Sub message.")] |}.
Proof.
  intros Hm [data [Hdata Hcase]].
  unfold EventController.post, EventController.post_try.
  rewrite Hm, bind_lift_ok.
  assert (Hd : exists d, decodedData rt pubSubMessage = Ok d /\ no_data d = true).
  { unfold decodedData. rewrite Hdata. simpl.
    destruct (truthy data) eqn:T.
    - destruct Hcase as [F|[s [Hs Ht]]]; [discriminate|].
      rewrite Hs. simpl. rewrite Ht. eauto.
    - eauto. }
  destruct Hd as [d [Hd Hno]].
  rewrite Hd, bind_lift_ok, Hno.
  split; reflexivity.
Qed.

Lemma missing_payload_is_rejected_witness :
  stages (trace (EventController.post Sample.rt Sample.services
                   (Sample.envelope (VString " ")))) = []
  /\ sent (EventController.post Sample.rt Sample.services
             (Sample.envelope (VString " ")))
     = Some {| status := 400;
               payload := VObject [("error",
                                    VString "❌ No data found in Pub/Sub message.")] |}.
Proof.
  apply (missing_payload_is_rejected Sample.rt Sample.services
           (Sample.envelope (VString " ")) (VObject [("data", VString " ")])).
  - reflexivity.
  - exists (VString " "). split; [reflexivity|].
    right. exists " ". split; reflexivity.
Defined.

(** C4, on the code.  A body without the [message] wrapper, or with a [null]
    one, has no payload field.  The controller throws while reading [data]
    and answers 500 with the TypeError's message as details, not the 400 of a
    missing payload; no collaborator is invoked. *)
Theorem absent_wrapper_is_answered_500 :
  (stages (trace (EventController.post Sample.rt Sample.services
                    {| request_body := VObject [] |})) = []
   /\ sent (EventController.post Sample.rt Sample.services
              {| request_body := VObject [] |})
      = Some {| status := 500;
                payload :=
                  VObject [("error", VString EventController.internal_error_message);
                           ("details",
                            VString "Cannot read properties of undefined (reading 'data')")] |})
  /\ (stages (trace (EventController.post Sample.rt Sample.services
                       {| request_body := VObject [("message", VNull)] |})) = []
      /\ sent (EventController.post Sample.rt Sample.services
                 {| request_body := VObject [("message", VNull)] |})
         = Some {| status := 500;
                   payload :=
                     VObject [("error", VString EventController.internal_error_message);
                              ("details",
                               VString "Cannot read properties of null (reading 'data')")] |}).
Proof. repeat split; reflexivity. Qed.

(** C5.  A payload that decodes to a non-empty text which [JSON.parse]
    rejects is answered 500, not 400, with the fixed internal-error message
    and the parse error's message as details, and no collaborator is
    invoked. *)
Theorem malformed_payload_is_internal_error
    (rt : Runtime) (services : Collaborators) (request : Request)
    (s message : string) :
  decodes_to rt request s ->
  JSON_parse rt s = SyntaxError message ->
  stages (trace (EventController.post rt services request)) = []
  /\ sent (EventController.post rt services request)
     = Some {| status := 500;
               payload := VObject [("error",
                                    VString "❌ Internal server error. Failed to process request.");
                                   ("details", VString message)] |}.
Proof.
  intros [pubSubMessage [Hm [Hd Hs]]] Hp.
  unfold EventController.post, EventController.post_try.
  rewrite Hm, bind_lift_ok, Hd, bind_lift_ok, (no_data_nonempty s Hs).
  unfold parse. rewrite Hp.
  split; reflexivity.
Qed.

Lemma malformed_payload_is_internal_error_witness :
  stages (trace (EventController.post Sample.rt Sample.services
                   (Sample.envelope (VString "invalid-json")))) = []
  /\ sent (EventController.post Sample.rt Sample.services
             (Sample.envelope (VString "invalid-json")))
     = Some {| status := 500;
               payload := VObject [("error",
                                    VString "❌ Internal server error. Failed to process request.");
                                   ("details", VString "Unexpected token")] |}.
Proof.
  apply (malformed_payload_is_internal_error Sample.rt Sample.services
           (Sample.envelope (VString "invalid-json")) "invalid-json").
  - exists (VObject [("data", VString "invalid-json")]).
    split; [reflexivity|]. split; [reflexivity|discriminate].
  - reflexivity.
Defined.

(* ================================================================== *)
(** ** Failures inside the pipeline *)

(** C6.  In an enriching request, when a stage fails the stages invoked are
    exactly those up to the failing one (a failed analysis leaves generation
    and persistence uncalled, a failed generation leaves persistence
    uncalled), and the response is 500: with details equal to the thrown
    error's message when it is an [Error], with only the generic message
    otherwise. *)
Theorem stage_failure_aborts
    (rt : Runtime) (services : Collaborators) (request : Request)
    (jsonData productId imageUrl : value) (e : thrown) (invoked : list event) :
  delivers rt request jsonData ->
  identifies jsonData productId imageUrl ->
  EventController.genDescriptionValue jsonData = Ok (VString "true") ->
  first_failure services imageUrl productId e invoked ->
  stages (trace (EventController.post rt services request)) = invoked
  /\ sent (EventController.post rt services request)
     = Some {| status := 500;
               payload :=
                 match e with
                 | ThrownError message =>
                     VObject [("error",
                               VString "❌ Internal server error. Failed to process request.");
                              ("details", VString message)]
                 | ThrownOther _ =>
                     VObject [("error", VString "❌ Unexpected error occurred.")]
                 end |}.
Proof.
  intros Hdel (Hid & Hurl & Tid & Turl) Hflag Hfail.
  rewrite (post_delivered rt services request jsonData Hdel).
  enter_event Hid;
    rewrite ?bind_tell, ?bind_ret, Hid, bind_lift_ok, Hurl, bind_lift_ok, Tid, Turl,
      Hflag, bind_lift_ok;
    unfold await_productAnalysis, await_generateProductDescription,
      await_updateProductDescription;
    cbn -[String.append];
    destruct Hfail as [e Han|imageData e Han Hgen|imageData description e Han Hgen Hupd];
    rewrite Han; cbn; try (rewrite Hgen; cbn); try (rewrite Hupd; cbn);
    destruct e; split; reflexivity.
Qed.

Lemma stage_failure_aborts_witness :
  stages (trace (EventController.post Sample.rt Sample.vision_down
                   (Sample.envelope (VString "enabled"))))
  = [ProductAnalysis (VString "https://x/img.jpg")]
  /\ sent (EventController.post Sample.rt Sample.vision_down
             (Sample.envelope (VString "enabled")))
     = Some {| status := 500;
               payload :=
                 VObject [("error",
                           VString "❌ Internal server error. Failed to process request.");
                          ("details", VString "Vision AI service failed")] |}.
Proof.
  apply (stage_failure_aborts Sample.rt Sample.vision_down
           (Sample.envelope (VString "enabled")) Sample.enabled_event
           (VString "p-1") (VString "https://x/img.jpg")
           (ThrownError "Vision AI service failed")
           [ProductAnalysis (VString "https://x/img.jpg")]).
  - exists "enabled". split; [|reflexivity].
    exists (VObject [("data", VString "enabled")]).
    split; [reflexivity|]. split; [reflexivity|discriminate].
  - repeat split; reflexivity.
  - reflexivity.
  - apply analysis_fails. reflexivity.
Defined.

(* ================================================================== *)
(** ** Reading the enrichment flag *)

Lemma find_value_first (key : string) (before : list value) (attr : value)
      (after : list value) :
  Forall (not_named key) before ->
  named key attr ->
  find_value key (VArray (before ++ attr :: after)) = get attr "value".
Proof.
  intros Hbefore Hattr. unfold find_value.
  rewrite (find_by_name_first key before attr after Hbefore Hattr).
  reflexivity.
Qed.

Lemma or_empty_array (elems : list value) : or_empty (VArray elems) = VArray elems.
Proof. reflexivity. Qed.

(** Without an entry named as the key the flag is [undefined]. *)
Lemma find_value_absent (key : string) (elems : list value) :
  Forall (not_named key) elems ->
  find_value key (VArray elems) = Ok VUndefined.
Proof.
  intros Hall. unfold find_value.
  rewrite (find_by_name_none key elems Hall). reflexivity.
Qed.

(** C7.  When the attributes of an event hold several entries named as the
    flag key, the flag is the value of the first of them in sequence order,
    whatever follows it; and an event without an attributes field yields the
    flag of an event whose attributes are the empty sequence. *)
Theorem first_flag_attribute_wins (jsonData : value) :
  (forall before attr after,
      raw_attributes jsonData = Ok (VArray (before ++ attr :: after)) ->
      Forall (not_named "generateDescription") before ->
      named "generateDescription" attr ->
      EventController.genDescriptionValue jsonData = get attr "value")
  /\ (raw_attributes jsonData = Ok VUndefined ->
      EventController.genDescriptionValue jsonData = Ok VUndefined
      /\ forall other,
          raw_attributes other = Ok (VArray []) ->
          EventController.genDescriptionValue other
          = EventController.genDescriptionValue jsonData).
Proof.
  split.
  - intros before attr after Hraw Hbefore Hattr.
    unfold EventController.genDescriptionValue.
    rewrite Hraw. unfold and_then. rewrite or_empty_array.
    now apply find_value_first.
  - intros Hraw. unfold EventController.genDescriptionValue.
    rewrite Hraw. split; [reflexivity|].
    intros other Hother. rewrite Hother. reflexivity.
Qed.

Lemma first_flag_attribute_wins_witness :
  EventController.genDescriptionValue Sample.repeated_flag_event = Ok (VString "true")
  /\ EventController.genDescriptionValue Sample.bare_event = Ok VUndefined.
Proof.
  split.
  - apply (proj1 (first_flag_attribute_wins Sample.repeated_flag_event)
             [Sample.attribute "color" (VString "red")]
             (Sample.attribute "generateDescription" (VString "true"))
             [Sample.attribute "generateDescription" (VString "false")]).
    + reflexivity.
    + constructor; [|constructor]. exists (VString "color"). split; reflexivity.
    + exists (VString "generateDescription"). split; reflexivity.
  - apply (proj1 (proj2 (first_flag_attribute_wins Sample.bare_event) eq_refl)).
Defined.

(** The same holds for the stand-alone handler and its key. *)
Lemma monolith_first_flag_attribute_wins (jsonData : value) before attr after :
  raw_attributes jsonData = Ok (VArray (before ++ attr :: after)) ->
  Forall (not_named "gen-description") before ->
  named "gen-description" attr ->
  Monolith.genDescriptionValue jsonData = get attr "value".
Proof.
  intros Hraw Hbefore Hattr. unfold Monolith.genDescriptionValue.
  rewrite Hraw. unfold and_then. rewrite or_empty_array.
  now apply find_value_first.
Qed.

(** X9.  With well-formed attributes (none, or an array without null entries)
    reading the flag never throws. *)
Lemma genDescriptionValue_total (jsonData raw : value) :
  raw_attributes jsonData = Ok raw ->
  truthy raw = false
  \/ (exists elems, raw = VArray elems /\ Forall (fun attr => nullish attr = false) elems) ->
  exists flag, EventController.genDescriptionValue jsonData = Ok flag.
Proof.
  intros Hraw Hwf. unfold EventController.genDescriptionValue.
  rewrite Hraw. unfold and_then.
  destruct Hwf as [F|[elems [-> Hall]]].
  - unfold or_empty. rewrite F. simpl. eauto.
  - rewrite or_empty_array. unfold find_value.
    destruct (find_by_name_total "generateDescription" elems Hall) as [found Hf].
    rewrite Hf. simpl. destruct found as [attr|]; [|eauto].
    destruct (find_by_name_sound _ _ _ Hf) as [_ [n [Hn _]]].
    destruct attr; simpl in *; try discriminate; eauto.
Qed.

(* ================================================================== *)
(** ** The resource type *)

Lemma same_outside_resource_projection (j1 j2 : value) :
  same_outside_resource j1 j2 ->
  get j1 "productProjection" = get j2 "productProjection".
Proof.
  intros [f1 [f2 [-> [-> Hsame]]]]. simpl.
  rewrite (Hsame "productProjection"); [reflexivity|discriminate].
Qed.

Lemma same_outside_resource_reads (j1 j2 : value) :
  same_outside_resource j1 j2 ->
  productId_of j1 = productId_of j2
  /\ imageUrl_of j1 = imageUrl_of j2
  /\ EventController.genDescriptionValue j1 = EventController.genDescriptionValue j2.
Proof.
  intros H. apply same_outside_resource_projection in H.
  unfold EventController.genDescriptionValue, raw_attributes, imageUrl_of,
    masterVariant_of, productId_of.
  rewrite H. repeat split; reflexivity.
Qed.

(** C9.  Two parsed events that agree everywhere outside [resource], so in
    particular two events that differ only in the value or the presence of
    [resource.typeId], get the same response (status and body) and cause the
    same collaborator calls: only log lines can differ. *)
Theorem resource_type_only_affects_logging
    (rt : Runtime) (services : Collaborators) (request1 request2 : Request)
    (j1 j2 : value) :
  delivers rt request1 j1 ->
  delivers rt request2 j2 ->
  same_outside_resource j1 j2 ->
  sent (EventController.post rt services request1)
  = sent (EventController.post rt services request2)
  /\ unlogged (trace (EventController.post rt services request1))
     = unlogged (trace (EventController.post rt services request2)).
Proof.
  intros Hd1 Hd2 Hsame.
  rewrite (post_delivered rt services request1 j1 Hd1).
  rewrite (post_delivered rt services request2 j2 Hd2).
  destruct (same_outside_resource_reads j1 j2 Hsame) as (Hid & Hurl & Hflag).
  unfold EventController.post_event. rewrite Hid, Hurl, Hflag.
  destruct Hsame as [f1 [f2 [-> [-> _]]]].
  rewrite !get_object, !bind_lift_ok.
  destruct (get_opt_total (own f1 "resource") "typeId") as [t1 Ht1].
  destruct (get_opt_total (own f2 "resource") "typeId") as [t2 Ht2].
  rewrite Ht1, Ht2, !bind_lift_ok.
  match goal with
  | |- context [bind _ (fun _ : unit => ?k)] => generalize k
  end.
  intros [t [r|e]];
    destruct (strict_eq_string t1 "product"), (strict_eq_string t2 "product");
    rewrite ?bind_tell, ?bind_ret; cbn; try (split; reflexivity);
    destruct e; split; reflexivity.
Qed.

Lemma resource_type_only_affects_logging_witness :
  sent (EventController.post Sample.rt Sample.services
          (Sample.envelope (VString "enabled")))
  = sent (EventController.post Sample.rt Sample.services
            (Sample.envelope (VString "category")))
  /\ unlogged (trace (EventController.post Sample.rt Sample.services
                        (Sample.envelope (VString "enabled"))))
     = unlogged (trace (EventController.post Sample.rt Sample.services
                          (Sample.envelope (VString "category")))).
Proof.
  apply (resource_type_only_affects_logging Sample.rt Sample.services
           (Sample.envelope (VString "enabled"))
           (Sample.envelope (VString "category"))
           Sample.enabled_event Sample.enabled_category_event).
  - exists "enabled". split; [|reflexivity].
    exists (VObject [("data", VString "enabled")]).
    split; [reflexivity|]. split; [reflexivity|discriminate].
  - exists "category". split; [|reflexivity].
    exists (VObject [("data", VString "category")]).
    split; [reflexivity|]. split; [reflexivity|discriminate].
  - eexists. eexists. split; [reflexivity|]. split; [reflexivity|].
    intros key Hkey. cbn [own].
    destruct (String.eqb "resource" key) eqn:E; [|reflexivity].
    apply String.eqb_eq in E. congruence.
Defined.

(** The log lines themselves do differ with the resource type. *)
Example resource_type_changes_the_log :
  trace (EventController.post Sample.rt Sample.services
           (Sample.envelope (VString "enabled")))
  <> trace (EventController.post Sample.rt Sample.services
              (Sample.envelope (VString "category"))).
Proof. vm_compute. discriminate. Qed.

(* ================================================================== *)
(** ** Persistence *)

(** C10.  Every call of the persistence operation first fetches the product;
    when the fetch yields a version, exactly one update follows, for the same
    product, at that version, whose only action is a [setDescription] storing
    the description under the locale [en]; when it yields none, no update is
    issued.  Nothing else is requested from the catalog. *)
Theorem update_sets_description_at_fetched_version
    (apiRoot : ProductRepository.ApiRoot) (productId : value) (description : string) :
  catalog_requests
    (trace (ProductRepository.updateProductDescription apiRoot productId description))
  = ProductsGet productId
    :: match ProductRepository.fetched_version apiRoot productId with
       | Ok currentVersion =>
           [ProductsPost productId
              (VObject [("version", currentVersion);
                        ("actions",
                         VArray [VObject [("action", VString "setDescription");
                                          ("description",
                                           VObject [("en", VString description)])]])])]
       | Throw _ => []
       end.
Proof.
  unfold ProductRepository.updateProductDescription, ProductRepository.fetched_version,
    ProductRepository.products_get, ProductRepository.products_post, logger_info.
  destruct (ProductRepository.get_execute apiRoot productId) as [productResponse|e];
    [|reflexivity].
  cbn -[get].
  destruct (get (body productResponse) "version") as [currentVersion|e];
    [|reflexivity].
  cbn -[get].
  destruct (ProductRepository.post_execute apiRoot productId
              (ProductRepository.update_body currentVersion description));
    reflexivity.
Qed.

(** The operation resolves to the response of the update. *)
Lemma update_resolves_to_update_response
    (apiRoot : ProductRepository.ApiRoot) (productId : value) (description : string)
    (currentVersion : value) :
  ProductRepository.fetched_version apiRoot productId = Ok currentVersion ->
  outcome (ProductRepository.updateProductDescription apiRoot productId description)
  = ProductRepository.post_execute apiRoot productId
      (ProductRepository.update_body currentVersion description).
Proof.
  unfold ProductRepository.updateProductDescription, ProductRepository.fetched_version,
    ProductRepository.products_get, ProductRepository.products_post, logger_info.
  destruct (ProductRepository.get_execute apiRoot productId) as [productResponse|e];
    [|discriminate].
  cbn -[get]. intros Hv. rewrite Hv. cbn -[get].
  destruct (ProductRepository.post_execute apiRoot productId
              (ProductRepository.update_body currentVersion description));
    reflexivity.
Qed.

Example update_on_sample_catalog :
  catalog_requests
    (trace (ProductRepository.updateProductDescription Sample.catalog
              (VString "p-1") "A beautiful cotton shirt."))
  = [ProductsGet (VString "p-1");
     ProductsPost (VString "p-1")
       (VObject [("version", VNumber 1);
                 ("actions",
                  VArray [VObject [("action", VString "setDescription");
                                   ("description",
                                    VObject [("en", VString "A beautiful cotton shirt.")])]])])].
Proof. reflexivity. Qed.

(* ================================================================== *)
(** ** Events without identifier or image *)

(** C2, on the code.  The event of this request has an image but no product
    identifier: the controller invokes no collaborator and returns without
    sending any response. *)
Theorem anonymous_event_gets_no_response :
  Sample.rt.(JSON_parse) "anonymous" = Parsed Sample.anonymous_event
  /\ productId_of Sample.anonymous_event = Ok VUndefined
  /\ stages (trace (EventController.post Sample.rt Sample.services
                      (Sample.envelope (VString "anonymous")))) = []
  /\ sent (EventController.post Sample.rt Sample.services
             (Sample.envelope (VString "anonymous"))) = None.
Proof. repeat split; reflexivity. Qed.

(** X1.  For every parsed event that lacks the product identifier or the
    image location the controller invokes no stage and sends no response. *)
Lemma anonymous_event_is_dropped
    (rt : Runtime) (services : Collaborators) (request : Request) (jsonData : value) :
  delivers rt request jsonData ->
  anonymous jsonData ->
  stages (trace (EventController.post rt services request)) = []
  /\ sent (EventController.post rt services request) = None.
Proof.
  intros Hdel (productId & imageUrl & Hid & Hurl & Hfalsy).
  rewrite (post_delivered rt services request jsonData Hdel).
  assert (Hand : truthy productId && truthy imageUrl = false).
  { destruct Hfalsy as [->| ->]; [reflexivity|apply andb_false_r]. }
  enter_event Hid;
    rewrite ?bind_tell, ?bind_ret, Hid, bind_lift_ok, Hurl, bind_lift_ok, Hand;
    split; reflexivity.
Qed.

(** The stand-alone handler answers it 400. *)
Example monolith_anonymous_event_is_rejected :
  sent (Monolith.post Sample.rt Sample.services (Sample.envelope (VString "anonymous")))
  = Some {| status := 400;
            payload := VObject [("error", VString "productId or imageUrl is missing")] |}.
Proof. reflexivity. Qed.

(* ================================================================== *)
(** ** The image analysis structure *)

(** C8, on the code.  For an annotation result whose color list is present
    and empty, as are all its other lists, [getImageData] substitutes the
    fallback in the four textual fields but leaves [colors] empty: it is not
    [["No colors detected"]]. *)
Theorem empty_color_list_gets_no_fallback :
  VisionAnalysis.dominant_colors Sample.no_colors = Some []
  /\ VisionAnalysis.image_data_of Sample.no_colors
     = Ok {| labels := "No labels detected";
             objects := "No objects detected";
             colors := [];
             detectedText := "No text detected";
             webEntities := "No web entities detected" |}.
Proof. split; reflexivity. Qed.

(** X20.  Whenever the analysis succeeds, the four textual fields carry their
    fallback for an absent or empty detector list, and [colors] carries its
    fallback for an absent list. *)
Lemma image_data_fallbacks (r : Vision.AnnotateImageResponse) (d : ImageData) :
  VisionAnalysis.image_data_of r = Ok d ->
  (Vision.labelAnnotations r = None \/ Vision.labelAnnotations r = Some [] ->
   labels d = "No labels detected")
  /\ (Vision.localizedObjectAnnotations r = None
      \/ Vision.localizedObjectAnnotations r = Some [] ->
      objects d = "No objects detected")
  /\ (VisionAnalysis.dominant_colors r = None -> colors d = ["No colors detected"])
  /\ (Vision.textAnnotations r = None \/ Vision.textAnnotations r = Some [] ->
      detectedText d = "No text detected")
  /\ (VisionAnalysis.web_entities r = None \/ VisionAnalysis.web_entities r = Some [] ->
      webEntities d = "No web entities detected").
Proof.
  unfold VisionAnalysis.image_data_of.
  destruct (VisionAnalysis.dominant_colors r) as [cs|] eqn:Hc.
  - destruct (VisionAnalysis.map_result VisionAnalysis.format_color (firstn 3 cs));
      [|discriminate].
    cbn. intros H. injection H as <-. cbn.
    repeat split.
    + intros [-> | ->]; reflexivity.
    + intros [-> | ->]; reflexivity.
    + discriminate.
    + unfold VisionAnalysis.first_text. intros [-> | ->]; reflexivity.
    + intros [-> | ->]; reflexivity.
  - cbn. intros H. injection H as <-. cbn.
    repeat split.
    + intros [-> | ->]; reflexivity.
    + intros [-> | ->]; reflexivity.
    + unfold VisionAnalysis.first_text. intros [-> | ->]; reflexivity.
    + intros [-> | ->]; reflexivity.
Qed.

Lemma map_result_length {A B} (f : A -> result B) (xs : list A) (ys : list B) :
  VisionAnalysis.map_result f xs = Ok ys -> List.length ys = List.length xs.
Proof.
  revert ys. induction xs as [|x xs IH]; simpl; intros ys H.
  - injection H as <-. reflexivity.
  - destruct (f x); [|discriminate]. simpl in H.
    destruct (VisionAnalysis.map_result f xs) as [ys'|]; [|discriminate].
    simpl in H. injection H as <-. simpl. f_equal. now apply IH.
Qed.

(** X18.  At most three colors are reported. *)
Lemma image_data_colors_capped (r : Vision.AnnotateImageResponse) (d : ImageData) :
  VisionAnalysis.image_data_of r = Ok d ->
  (List.length (colors d) <= 3)%nat.
Proof.
  unfold VisionAnalysis.image_data_of.
  destruct (VisionAnalysis.dominant_colors r) as [cs|].
  - destruct (VisionAnalysis.map_result VisionAnalysis.format_color (firstn 3 cs))
      as [ys|] eqn:Hm; [|discriminate].
    cbn. intros H. injection H as <-. cbn.
    rewrite (map_result_length _ _ _ Hm). apply firstn_le_length.
  - cbn. intros H. injection H as <-. cbn. lia.
Qed.

(** The web-entities field is built from the first five entries. *)
Lemma image_data_web_entities (r : Vision.AnnotateImageResponse) (d : ImageData) :
  VisionAnalysis.image_data_of r = Ok d ->
  webEntities d
  = VisionAnalysis.or_string
      (option_map (fun es => VisionAnalysis.join ", "
                               (map Vision.description (firstn 5 es)))
                  (VisionAnalysis.web_entities r))
      "No web entities detected".
Proof.
  unfold VisionAnalysis.image_data_of. intros H.
  destruct (match VisionAnalysis.dominant_colors r with
            | Some cs => _ | None => _ end); [|discriminate].
  unfold and_then in H. injection H as <-. reflexivity.
Qed.

(** X19.  Web entities after the fifth do not reach the structure. *)
Lemma image_data_web_entities_capped
    (r1 r2 : Vision.AnnotateImageResponse) (d1 d2 : ImageData)
    (es1 es2 : list Vision.Described) :
  VisionAnalysis.image_data_of r1 = Ok d1 ->
  VisionAnalysis.image_data_of r2 = Ok d2 ->
  VisionAnalysis.web_entities r1 = Some es1 ->
  VisionAnalysis.web_entities r2 = Some es2 ->
  firstn 5 es1 = firstn 5 es2 ->
  webEntities d1 = webEntities d2.
Proof.
  intros H1 H2 W1 W2 Hfirst.
  rewrite (image_data_web_entities r1 d1 H1), (image_data_web_entities r2 d2 H2).
  rewrite W1, W2. unfold option_map. rewrite Hfirst. reflexivity.
Qed.

(* ================================================================== *)
(** ** The stand-alone handler *)

Section MonolithFacts.

Variable rt : Runtime.
Variable services : Collaborators.

Lemma decoded_message_is_truthy (pubSubMessage : value) (s : string) :
  decodedData rt pubSubMessage = Ok (Some s) -> truthy pubSubMessage = true.
Proof.
  unfold decodedData. destruct pubSubMessage; simpl; try discriminate; reflexivity.
Qed.

Lemma monolith_post_delivered (request : Request) (jsonData : value) :
  delivers rt request jsonData ->
  Monolith.post rt services request
  = try_catch (Monolith.post_event rt services jsonData) (Monolith.post_catch rt).
Proof.
  intros [s [[pubSubMessage [Hm [Hd Hs]]] Hp]].
  unfold Monolith.post, Monolith.post_try.
  rewrite Hm, bind_lift_ok, (decoded_message_is_truthy _ _ Hd).
  cbn [negb]. rewrite Hd, bind_lift_ok, (no_data_nonempty s Hs).
  unfold parse. rewrite Hp, bind_lift_ok. reflexivity.
Qed.

(** The stand-alone handler runs the same pipeline, provided the identifier,
    the image location and the update's body can be converted to strings for
    its log lines; its success body names the analysis [imageAnalysis]. *)
Lemma monolith_enriching_request_runs_pipeline
    (request : Request) (jsonData productId imageUrl : value)
    (imageData : ImageData) (description : string) (updateResponse : ClientResponse) :
  delivers rt request jsonData ->
  identifies jsonData productId imageUrl ->
  Monolith.genDescriptionValue jsonData = Ok (VString "true") ->
  printable rt productId ->
  printable rt imageUrl ->
  productAnalysis services imageUrl = Ok imageData ->
  generateProductDescription services imageData = Ok description ->
  updateProductDescription services productId description = Ok updateResponse ->
  printable rt (body updateResponse) ->
  stages (trace (Monolith.post rt services request))
  = [ProductAnalysis imageUrl;
     GenerateDescription imageData;
     UpdateDescription productId description]
  /\ sent (Monolith.post rt services request)
     = Some {| status := 200;
               payload := VObject [("productId", productId);
                                   ("imageUrl", imageUrl);
                                   ("description", VString description);
                                   ("imageAnalysis", ImageData_to_value imageData);
                                   ("commerceToolsUpdate", body updateResponse)] |}.
Proof.
  intros Hdel (Hid & Hurl & Tid & Turl) Hflag [idText Pid] [urlText Purl]
    Han Hgen Hupd [bodyText Pbody].
  rewrite (monolith_post_delivered request jsonData Hdel).
  unfold Monolith.post_event.
  rewrite Hid, bind_lift_ok, Hurl, bind_lift_ok, Tid, Turl.
  cbn [negb orb]. unfold logger_info.
  rewrite Pid, bind_lift_ok, bind_tell, Purl, bind_lift_ok, bind_tell, Hflag,
    bind_lift_ok.
  unfold await_productAnalysis, await_generateProductDescription,
    await_updateProductDescription.
  cbn -[String.append ImageData_to_value].
  rewrite Han; cbn -[String.append ImageData_to_value].
  rewrite Hgen; cbn -[String.append ImageData_to_value].
  rewrite Hupd; cbn -[String.append ImageData_to_value].
  rewrite Pbody; cbn -[String.append ImageData_to_value].
  split; reflexivity.
Qed.

(** It skips on a disabled flag like the controller does, once the
    identifier and the image location have been converted for its log
    lines. *)
Lemma monolith_disabled_flag_skips
    (request : Request) (jsonData productId imageUrl flag : value) :
  delivers rt request jsonData ->
  identifies jsonData productId imageUrl ->
  Monolith.genDescriptionValue jsonData = Ok flag ->
  flag <> VString "true" ->
  printable rt productId ->
  printable rt imageUrl ->
  stages (trace (Monolith.post rt services request)) = []
  /\ sent (Monolith.post rt services request)
     = Some {| status := 200;
               payload := VObject [("message", VString Monolith.not_enabled_message);
                                   ("productId", productId);
                                   ("imageUrl", imageUrl)] |}.
Proof.
  intros Hdel (Hid & Hurl & Tid & Turl) Hflag Hne [idText Pid] [urlText Purl].
  apply strict_eq_string_false in Hne.
  rewrite (monolith_post_delivered request jsonData Hdel).
  unfold Monolith.post_event.
  rewrite Hid, bind_lift_ok, Hurl, bind_lift_ok, Tid, Turl.
  cbn [negb orb]. unfold logger_info.
  rewrite Pid, bind_lift_ok, bind_tell, Purl, bind_lift_ok, bind_tell, Hflag,
    bind_lift_ok, Hne.
  split; reflexivity.
Qed.

(** It rejects a missing payload with its own fixed message. *)
Lemma monolith_missing_payload_is_rejected
    (request : Request) (pubSubMessage : value) :
  get (request_body request) "message" = Ok pubSubMessage ->
  truthy pubSubMessage = true ->
  missing_payload rt pubSubMessage ->
  stages (trace (Monolith.post rt services request)) = []
  /\ sent (Monolith.post rt services request)
     = Some {| status := 400;
               payload := VObject [("error",
                                    VString "No data found in Pub/Sub message")] |}.
Proof.
  intros Hm Tm [data [Hdata Hcase]].
  unfold Monolith.post, Monolith.post_try.
  rewrite Hm, bind_lift_ok, Tm. cbn [negb].
  assert (Hd : exists d, decodedData rt pubSubMessage = Ok d /\ no_data d = true).
  { unfold decodedData. rewrite Hdata. simpl.
    destruct (truthy data) eqn:T.
    - destruct Hcase as [F|[s [Hs Ht]]]; [discriminate|].
      rewrite Hs. simpl. rewrite Ht. eauto.
    - eauto. }
  destruct Hd as [d [Hd Hno]].
  rewrite Hd, bind_lift_ok, Hno.
  split; reflexivity.
Qed.

(** It never reads [resource]: events that agree outside it are handled
    identically, log lines included. *)
Lemma monolith_ignores_resource (request1 request2 : Request) (j1 j2 : value) :
  delivers rt request1 j1 ->
  delivers rt request2 j2 ->
  same_outside_resource j1 j2 ->
  Monolith.post rt services request1 = Monolith.post rt services request2.
Proof.
  intros Hd1 Hd2 Hsame.
  rewrite (monolith_post_delivered request1 j1 Hd1).
  rewrite (monolith_post_delivered request2 j2 Hd2).
  apply same_outside_resource_projection in Hsame.
  unfold Monolith.post_event, Monolith.genDescriptionValue, raw_attributes,
    imageUrl_of, masterVariant_of, productId_of.
  rewrite Hsame. reflexivity.
Qed.

End MonolithFacts.

Example monolith_enabled_event :
  sent (Monolith.post Sample.rt Sample.services (Sample.envelope (VString "legacy")))
  = Some {| status := 200;
            payload := VObject [("productId", VString "p-1");
                                ("imageUrl", VString "https://x/img.jpg");
                                ("description", VString "A beautiful cotton shirt.");
                                ("imageAnalysis", ImageData_to_value Sample.shirt);
                                ("commerceToolsUpdate", body Sample.updated)] |}.
Proof. reflexivity. Qed.

(** The two handlers read different keys: the event enabled under the
    stand-alone key is skipped by the controller. *)
Example controller_ignores_legacy_key :
  sent (EventController.post Sample.rt Sample.services
          (Sample.envelope (VString "legacy")))
  = Some {| status := 200;
            payload := VObject [("message",
                                 VString EventController.not_enabled_message);
                                ("productId", VString "p-1");
                                ("imageUrl", VString "https://x/img.jpg")] |}.
Proof. reflexivity. Qed.

(* ================================================================== *)
(** ** Outcomes of a request, exhaustively *)

Lemma try_bind_lift {A B} (r : result A) (k : A -> M B) (h : thrown -> M B) :
  try_catch (bind (lift r) k) h
  = match r with
    | Ok a => try_catch (k a) h
    | Throw e => h e
    end.
Proof.
  destruct r as [a|e]; [rewrite bind_lift_ok; reflexivity|].
  unfold try_catch, bind, lift. destruct (h e); reflexivity.
Qed.

Lemma try_bind_tell {B} (ev : event) (k : unit -> M B) (h : thrown -> M B) :
  try_catch (bind (tell ev) k) h
  = (ev :: trace (try_catch (k tt) h), outcome (try_catch (k tt) h)).
Proof.
  unfold try_catch, bind, tell. destruct (k tt) as [t [a|e]]; [reflexivity|].
  destruct (h e). reflexivity.
Qed.

Lemma try_bind_ret {A B} (a : A) (k : A -> M B) (h : thrown -> M B) :
  try_catch (bind (ret a) k) h = try_catch (k a) h.
Proof. rewrite bind_ret. reflexivity. Qed.

Lemma bind_assoc {A B C} (m : M A) (k : A -> M B) (k' : B -> M C) :
  bind (bind m k) k' = bind m (fun a => bind (k a) k').
Proof.
  unfold bind. destruct m as [t [a|e]]; [|reflexivity].
  destruct (k a) as [t1 [b|e]]; [|reflexivity].
  destruct (k' b) as [t2 r]. now rewrite app_assoc.
Qed.

Lemma sent_cons (ev : event) (m : M (option response)) :
  sent (ev :: trace m, outcome m) = sent m.
Proof. destruct m. reflexivity. Qed.

Lemma stages_cons_log lvl msg meta (m : M (option response)) :
  stages (trace (Log lvl msg meta :: trace m, outcome m)) = stages (trace m).
Proof. reflexivity. Qed.

Lemma controller_catch_outcome rt services request (e : thrown) :
  controller_outcome rt services request
    (stages (trace (EventController.post_catch e)))
    (sent (EventController.post_catch e)).
Proof.
  destruct e as [message|v];
    [exact (thrown_early rt services request (ThrownError message))
    |exact (thrown_early rt services request (ThrownOther v))].
Qed.

Ltac log_step :=
  rewrite try_bind_tell, stages_cons_log, sent_cons.

Lemma controller_pipeline_outcomes rt services request jsonData productId imageUrl :
  delivers rt request jsonData ->
  identifies jsonData productId imageUrl ->
  EventController.genDescriptionValue jsonData = Ok (VString "true") ->
  forall m,
    m = try_catch
          (logger_info "✅ Sending product image to Vision AI." None ;;
           imageData <- await_productAnalysis services imageUrl ;;
           logger_info "✅ Sending image data to Generative AI." None ;;
           description <- await_generateProductDescription services imageData ;;
           logger_info "✅ Sending image description to Commerce Tools." None ;;
           updateResponse <- await_updateProductDescription services productId description ;;
           logger_info "✅ Process completed successfully." None ;;
           logger_info "⌛ Waiting for next event message." None ;;
           send 200 (VObject [("productId", productId);
                              ("imageUrl", imageUrl);
                              ("description", VString description);
                              ("productAnalysis", ImageData_to_value imageData);
                              ("commerceToolsUpdate", body updateResponse)]))
          EventController.post_catch ->
    controller_outcome rt services request (stages (trace m)) (sent m).
Proof.
  intros Hdel Hident Hflag m ->.
  unfold logger_info, await_productAnalysis, await_generateProductDescription,
    await_updateProductDescription.
  destruct (productAnalysis services imageUrl) as [imageData|e] eqn:Han.
  2:{ cbn. destruct e; cbn;
      [apply (failed rt services request jsonData productId imageUrl (ThrownError message))
      |apply (failed rt services request jsonData productId imageUrl (ThrownOther v))];
      auto; now apply analysis_fails. }
  destruct (generateProductDescription services imageData) as [description|e] eqn:Hgen.
  2:{ cbn. rewrite Hgen. destruct e; cbn;
      [apply (failed rt services request jsonData productId imageUrl (ThrownError message))
      |apply (failed rt services request jsonData productId imageUrl (ThrownOther v))];
      auto; now apply (generation_fails _ _ _ imageData). }
  destruct (updateProductDescription services productId description)
    as [updateResponse|e] eqn:Hupd.
  2:{ cbn. rewrite Hgen. cbn. rewrite Hupd. destruct e; cbn;
      [apply (failed rt services request jsonData productId imageUrl (ThrownError message))
      |apply (failed rt services request jsonData productId imageUrl (ThrownOther v))];
      auto; now apply (persistence_fails _ _ _ imageData description). }
  cbn. rewrite Hgen. cbn. rewrite Hupd. cbn -[ImageData_to_value].
  now apply (enriched rt services request jsonData productId imageUrl
               imageData description updateResponse).
Qed.

Lemma controller_event_outcomes rt services request jsonData :
  delivers rt request jsonData ->
  controller_outcome rt services request
    (stages (trace (try_catch (EventController.post_event services jsonData)
                      EventController.post_catch)))
    (sent (try_catch (EventController.post_event services jsonData)
             EventController.post_catch)).
Proof.
  intros Hdel. unfold EventController.post_event.
  rewrite try_bind_lift.
  destruct (get jsonData "resource") as [resource|e]; [|apply controller_catch_outcome].
  rewrite try_bind_lift.
  destruct (get_opt_total resource "typeId") as [typeId ->].
  assert (Hlogs : forall k : unit -> M (option response),
             controller_outcome rt services request
               (stages (trace (try_catch (k tt) EventController.post_catch)))
               (sent (try_catch (k tt) EventController.post_catch)) ->
             controller_outcome rt services request
               (stages (trace (try_catch
                  (bind (if strict_eq_string typeId "product"
                         then logger_info "✅ Event message received." None ;;
                              logger_info "✅ Processing event message." None
                         else ret tt) k) EventController.post_catch)))
               (sent (try_catch
                  (bind (if strict_eq_string typeId "product"
                         then logger_info "✅ Event message received." None ;;
                              logger_info "✅ Processing event message." None
                         else ret tt) k) EventController.post_catch))).
  { intros k Hk. destruct (strict_eq_string typeId "product").
    - unfold logger_info. rewrite bind_assoc. do 2 log_step. exact Hk.
    - rewrite try_bind_ret. exact Hk. }
  apply Hlogs. clear Hlogs.
  rewrite try_bind_lift.
  destruct (productId_of jsonData) as [productId|e] eqn:Hid;
    [|apply controller_catch_outcome].
  rewrite try_bind_lift.
  destruct (imageUrl_of jsonData) as [imageUrl|e] eqn:Hurl;
    [|apply controller_catch_outcome].
  destruct (truthy productId) eqn:Tid; cbn [andb].
  2:{ apply (dropped rt services request jsonData Hdel).
      exists productId, imageUrl. auto. }
  destruct (truthy imageUrl) eqn:Turl.
  2:{ apply (dropped rt services request jsonData Hdel).
      exists productId, imageUrl. auto. }
  assert (Hident : identifies jsonData productId imageUrl) by (repeat split; assumption).
  rewrite try_bind_lift.
  destruct (EventController.genDescriptionValue jsonData) as [flag|e] eqn:Hflag;
    [|apply controller_catch_outcome].
  destruct (strict_eq_string flag "true") eqn:Hstrict; cbn [negb].
  - apply strict_eq_string_true in Hstrict. subst flag.
    now apply (controller_pipeline_outcomes rt services request jsonData productId imageUrl).
  - unfold logger_info. log_step. cbn.
    apply (skipped rt services request jsonData productId imageUrl flag); auto.
    intros ->. simpl in Hstrict. discriminate.
Qed.

Lemma controller_outcomes rt services request :
  controller_outcome rt services request
    (stages (trace (EventController.post rt services request)))
    (sent (EventController.post rt services request)).
Proof.
  unfold EventController.post, EventController.post_try.
  rewrite try_bind_lift.
  destruct (get (request_body request) "message") as [pubSubMessage|e] eqn:Hm;
    [|apply controller_catch_outcome].
  rewrite try_bind_lift.
  destruct (decodedData rt pubSubMessage) as [decoded|e] eqn:Hd;
    [|apply controller_catch_outcome].
  destruct (no_data decoded) eqn:Hno.
  - unfold logger_error. log_step. cbn. apply no_payload.
  - destruct decoded as [s|]; [|discriminate].
    rewrite try_bind_lift. unfold parse.
    destruct (JSON_parse rt s) as [jsonData|message] eqn:Hp.
    + apply controller_event_outcomes.
      exists s. split; [|exact Hp]. exists pubSubMessage.
      repeat split; try assumption.
      intros ->. discriminate.
    + apply (controller_catch_outcome rt services request (ThrownError message)).
Qed.

(* ================================================================== *)
(** ** The controller on every request *)

(** X2.  The controller leaves a request without any response only when its
    payload was decoded and parsed and the event lacks the product identifier
    or the image location. *)
Theorem unanswered_request_is_anonymous
    (rt : Runtime) (services : Collaborators) (request : Request) :
  sent (EventController.post rt services request) = None ->
  exists jsonData, delivers rt request jsonData /\ anonymous jsonData.
Proof.
  intros Hsent.
  pose proof (controller_outcomes rt services request) as H.
  rewrite Hsent in H.
  inversion H; subst. eauto.
Qed.

Lemma unanswered_request_is_anonymous_witness :
  exists jsonData,
    delivers Sample.rt (Sample.envelope (VString "anonymous")) jsonData
    /\ anonymous jsonData.
Proof.
  apply (unanswered_request_is_anonymous Sample.rt Sample.services
           (Sample.envelope (VString "anonymous"))).
  reflexivity.
Defined.

(** X3.  The controller never rejects: whatever the request and whatever the
    collaborators do, [post] returns; and a response it sends has status 200,
    400 or 500. *)
Theorem controller_never_rejects
    (rt : Runtime) (services : Collaborators) (request : Request) :
  (exists r, outcome (EventController.post rt services request) = Ok r)
  /\ forall resp,
      sent (EventController.post rt services request) = Some resp ->
      status resp = 200%nat \/ status resp = 400%nat \/ status resp = 500%nat.
Proof.
  split.
  - unfold EventController.post, try_catch.
    destruct (EventController.post_try rt services request) as [t res].
    destruct res as [r|e]; [cbn; eauto|].
    destruct e; cbn; eauto.
  - intros resp Hsent.
    pose proof (controller_outcomes rt services request) as H.
    rewrite Hsent in H.
    inversion H; subst; cbn; auto.
Qed.

(** X4.  For every request the stages the controller invokes form a prefix of
    analysis, generation, persistence: generation is invoked only on the data
    a resolved analysis returned, persistence only on the text a resolved
    generation returned, and a stage is the last one invoked only when it is
    the third or it rejected. *)
Theorem controller_stage_discipline
    (rt : Runtime) (services : Collaborators) (request : Request) :
  let invoked := stages (trace (EventController.post rt services request)) in
  invoked = []
  \/ (exists imageUrl e,
        invoked = [ProductAnalysis imageUrl]
        /\ productAnalysis services imageUrl = Throw e)
  \/ (exists imageUrl imageData e,
        invoked = [ProductAnalysis imageUrl; GenerateDescription imageData]
        /\ productAnalysis services imageUrl = Ok imageData
        /\ generateProductDescription services imageData = Throw e)
  \/ (exists imageUrl imageData productId description,
        invoked = [ProductAnalysis imageUrl; GenerateDescription imageData;
                   UpdateDescription productId description]
        /\ productAnalysis services imageUrl = Ok imageData
        /\ generateProductDescription services imageData = Ok description).
Proof.
  intros invoked. subst invoked.
  pose proof (controller_outcomes rt services request) as H.
  destruct H as [ | e | j Hd Ha | j p u flag Hd Hi Hf Hne
                | j p u e invoked Hd Hi Hf Hfail | j p u d s upd Hd Hi Hf Han Hgen Hupd];
    try (left; reflexivity).
  - destruct Hfail as [e Han|d e Han Hgen|d s e Han Hgen Hupd].
    + right; left. eauto.
    + right; right; left. eauto 6.
    + right; right; right. eauto 8.
  - right; right; right. eauto 8.
Qed.

(** X5.  A response of the controller that carries a [description] is a 200
    sent after all three stages were invoked and resolved: the description is
    the text generation returned and persistence stored, and
    [commerceToolsUpdate] is the body persistence resolved to. *)
Theorem described_response_means_persisted
    (rt : Runtime) (services : Collaborators) (request : Request)
    (resp : response) (description : string) :
  sent (EventController.post rt services request) = Some resp ->
  get (payload resp) "description" = Ok (VString description) ->
  status resp = 200%nat
  /\ exists imageUrl imageData productId updateResponse,
      stages (trace (EventController.post rt services request))
      = [ProductAnalysis imageUrl; GenerateDescription imageData;
         UpdateDescription productId description]
      /\ productAnalysis services imageUrl = Ok imageData
      /\ generateProductDescription services imageData = Ok description
      /\ updateProductDescription services productId description = Ok updateResponse
      /\ get (payload resp) "commerceToolsUpdate" = Ok (body updateResponse).
Proof.
  intros Hsent Hdesc.
  pose proof (controller_outcomes rt services request) as H.
  rewrite Hsent in H.
  remember (stages (trace (EventController.post rt services request))) as invoked.
  remember (Some resp) as answer.
  destruct H as [ | e | j Hd Ha | j p u flag Hd Hi Hf Hne
                | j p u e invoked Hd Hi Hf Hfail | j p u d s upd Hd Hi Hf Han Hgen Hupd];
    try discriminate; injection Heqanswer as Hresp; subst resp.
  - vm_compute in Hdesc; discriminate.
  - destruct e; vm_compute in Hdesc; discriminate.
  - vm_compute in Hdesc; discriminate.
  - destruct e; vm_compute in Hdesc; discriminate.
  - cbn in Hdesc. injection Hdesc as ->.
    split; [reflexivity|]. eauto 10.
Qed.

Lemma controller_never_rejects_witness :
  status {| status := 200;
            payload := skip_payload EventController.not_enabled_message
                         (VString "p-1") (VString "https://x/img.jpg") |} = 200%nat
  \/ status {| status := 200;
               payload := skip_payload EventController.not_enabled_message
                            (VString "p-1") (VString "https://x/img.jpg") |} = 400%nat
  \/ status {| status := 200;
               payload := skip_payload EventController.not_enabled_message
                            (VString "p-1") (VString "https://x/img.jpg") |} = 500%nat.
Proof.
  apply (proj2 (controller_never_rejects Sample.rt Sample.services
                  (Sample.envelope (VString "disabled")))).
  reflexivity.
Defined.

Lemma described_response_means_persisted_witness :
  status {| status := 200;
            payload := VObject [("productId", VString "p-1");
                                ("imageUrl", VString "https://x/img.jpg");
                                ("description", VString "A beautiful cotton shirt.");
                                ("productAnalysis", ImageData_to_value Sample.shirt);
                                ("commerceToolsUpdate", body Sample.updated)] |} = 200%nat
  /\ exists imageUrl imageData productId updateResponse,
      stages (trace (EventController.post Sample.rt Sample.services
                       (Sample.envelope (VString "enabled"))))
      = [ProductAnalysis imageUrl; GenerateDescription imageData;
         UpdateDescription productId "A beautiful cotton shirt."]
      /\ productAnalysis Sample.services imageUrl = Ok imageData
      /\ generateProductDescription Sample.services imageData
         = Ok "A beautiful cotton shirt."
      /\ updateProductDescription Sample.services productId "A beautiful cotton shirt."
         = Ok updateResponse
      /\ get (payload {| status := 200;
                         payload := VObject [("productId", VString "p-1");
                                             ("imageUrl", VString "https://x/img.jpg");
                                             ("description",
                                              VString "A beautiful cotton shirt.");
                                             ("productAnalysis",
                                              ImageData_to_value Sample.shirt);
                                             ("commerceToolsUpdate",
                                              body Sample.updated)] |})
             "commerceToolsUpdate"
         = Ok (body updateResponse).
Proof.
  apply (described_response_means_persisted Sample.rt Sample.services
           (Sample.envelope (VString "enabled"))).
  - reflexivity.
  - reflexivity.
Defined.

(** A failure of the event stage before the pipeline. *)
Lemma controller_flag_failure rt services request jsonData productId imageUrl e :
  delivers rt request jsonData ->
  identifies jsonData productId imageUrl ->
  EventController.genDescriptionValue jsonData = Throw e ->
  stages (trace (EventController.post rt services request)) = []
  /\ sent (EventController.post rt services request)
     = Some {| status := 500; payload := failure_payload e |}.
Proof.
  intros Hdel (Hid & Hurl & Tid & Turl) Hflag.
  rewrite (post_delivered rt services request jsonData Hdel).
  enter_event Hid;
    rewrite ?bind_tell, ?bind_ret, Hid, bind_lift_ok, Hurl, bind_lift_ok, Tid, Turl,
      Hflag;
    destruct e; split; reflexivity.
Qed.

(** The scan throws at a nullish entry it reaches. *)
Lemma find_by_name_throws (key : string) (before : list value) (attr : value)
      (after : list value) :
  Forall (not_named key) before ->
  nullish attr = true ->
  find_by_name key (before ++ attr :: after) = Throw (TypeError_read attr "name").
Proof.
  intros Hbefore Hnull.
  induction Hbefore as [|x xs [n [Hn Hneq]] _ IH].
  - destruct attr; try discriminate Hnull; reflexivity.
  - cbn [app find_by_name]. rewrite Hn, Hneq. exact IH.
Qed.

(** X6.  When the attributes hold a [null] (or [undefined]) entry before any
    entry named as the flag, reading the flag throws: the controller invokes
    no stage and answers 500 with the TypeError's message as details. *)
Theorem null_attribute_before_flag_is_internal_error
    (rt : Runtime) (services : Collaborators) (request : Request)
    (jsonData productId imageUrl : value) (before : list value) (attr : value)
    (after : list value) :
  delivers rt request jsonData ->
  identifies jsonData productId imageUrl ->
  raw_attributes jsonData = Ok (VArray (before ++ attr :: after)) ->
  Forall (not_named "generateDescription") before ->
  nullish attr = true ->
  stages (trace (EventController.post rt services request)) = []
  /\ sent (EventController.post rt services request)
     = Some {| status := 500;
               payload :=
                 VObject [("error", VString EventController.internal_error_message);
                          ("details",
                           VString ("Cannot read properties of " ++ nullish_name attr
                                    ++ " (reading 'name')"))] |}.
Proof.
  intros Hdel Hident Hraw Hbefore Hnull.
  apply (controller_flag_failure rt services request jsonData productId imageUrl
           (TypeError_read attr "name") Hdel Hident).
  unfold EventController.genDescriptionValue. rewrite Hraw.
  unfold and_then. rewrite or_empty_array. unfold find_value.
  rewrite (find_by_name_throws _ before attr after Hbefore Hnull). reflexivity.
Qed.

Lemma null_attribute_before_flag_is_internal_error_witness :
  stages (trace (EventController.post Sample.rt Sample.services
                   (Sample.envelope (VString "null-attribute")))) = []
  /\ sent (EventController.post Sample.rt Sample.services
             (Sample.envelope (VString "null-attribute")))
     = Some {| status := 500;
               payload :=
                 VObject [("error", VString EventController.internal_error_message);
                          ("details",
                           VString ("Cannot read properties of " ++ nullish_name VNull
                                    ++ " (reading 'name')"))] |}.
Proof.
  apply (null_attribute_before_flag_is_internal_error Sample.rt Sample.services
           (Sample.envelope (VString "null-attribute")) Sample.null_attribute_event
           (VString "p-1") (VString "https://x/img.jpg") [] VNull []).
  - exists "null-attribute". split; [|reflexivity].
    exists (VObject [("data", VString "null-attribute")]).
    split; [reflexivity|]. split; [reflexivity|discriminate].
  - repeat split; reflexivity.
  - reflexivity.
  - constructor.
  - reflexivity.
Defined.

(** X7.  When decoding a present payload throws, the controller invokes no
    stage and answers 500 (not 400) through its [catch] block. *)
Theorem undecodable_payload_is_internal_error
    (rt : Runtime) (services : Collaborators) (request : Request)
    (pubSubMessage data : value) (e : thrown) :
  get (request_body request) "message" = Ok pubSubMessage ->
  get pubSubMessage "data" = Ok data ->
  truthy data = true ->
  Buffer_from_base64_toString rt data = Throw e ->
  stages (trace (EventController.post rt services request)) = []
  /\ sent (EventController.post rt services request)
     = Some {| status := 500; payload := failure_payload e |}.
Proof.
  intros Hm Hdata Tdata Hthrow.
  unfold EventController.post, EventController.post_try.
  rewrite Hm, bind_lift_ok.
  unfold decodedData. rewrite Hdata. cbn [and_then]. rewrite Tdata, Hthrow.
  cbn. destruct e; split; reflexivity.
Qed.

Lemma undecodable_payload_is_internal_error_witness :
  stages (trace (EventController.post Sample.rt Sample.services
                   (Sample.envelope (VBool true)))) = []
  /\ sent (EventController.post Sample.rt Sample.services
             (Sample.envelope (VBool true)))
     = Some {| status := 500;
               payload := failure_payload
                            (ThrownError "The first argument must be of type string") |}.
Proof.
  apply (undecodable_payload_is_internal_error Sample.rt Sample.services
           (Sample.envelope (VBool true))
           (VObject [("data", VBool true)]) (VBool true)
           (ThrownError "The first argument must be of type string"));
    reflexivity.
Defined.

(** X8.  A body whose [message] is absent or [null] makes the controller read
    [data] of a nullish value: it invokes no stage and answers 500 with the
    TypeError's message as details. *)
Theorem missing_message_wrapper_is_internal_error
    (rt : Runtime) (services : Collaborators) (request : Request) (message : value) :
  get (request_body request) "message" = Ok message ->
  nullish message = true ->
  stages (trace (EventController.post rt services request)) = []
  /\ sent (EventController.post rt services request)
     = Some {| status := 500;
               payload :=
                 VObject [("error", VString EventController.internal_error_message);
                          ("details",
                           VString ("Cannot read properties of " ++ nullish_name message
                                    ++ " (reading 'data')"))] |}.
Proof.
  intros Hm Hnull.
  unfold EventController.post, EventController.post_try.
  rewrite Hm, bind_lift_ok.
  destruct message; try discriminate Hnull; split; reflexivity.
Qed.

Lemma missing_message_wrapper_is_internal_error_witness :
  stages (trace (EventController.post Sample.rt Sample.services
                   {| request_body := VObject [] |})) = []
  /\ sent (EventController.post Sample.rt Sample.services
             {| request_body := VObject [] |})
     = Some {| status := 500;
               payload :=
                 VObject [("error", VString EventController.internal_error_message);
                          ("details",
                           VString ("Cannot read properties of " ++ nullish_name VUndefined
                                    ++ " (reading 'data')"))] |}.
Proof.
  apply (missing_message_wrapper_is_internal_error Sample.rt Sample.services
           {| request_body := VObject [] |} VUndefined); reflexivity.
Defined.

(* ================================================================== *)
(** ** The stand-alone handler on every request *)

(** The stand-alone pipeline once the gate is passed, by its first failure. *)
Lemma monolith_pipeline_fails rt services (productId imageUrl : value) e invoked :
  first_failure services imageUrl productId e invoked ->
  forall m,
    m = try_catch
          (imageData <- await_productAnalysis services imageUrl ;;
           description <- await_generateProductDescription services imageData ;;
           logger_info ("Product Description: " ++ description) None ;;
           updateResponse <- await_updateProductDescription services productId description ;;
           body_text <- lift (ToString rt (body updateResponse)) ;;
           logger_info ("Product description updated successfully: " ++ body_text) None ;;
           send 200 (VObject [("productId", productId);
                              ("imageUrl", imageUrl);
                              ("description", VString description);
                              ("imageAnalysis", ImageData_to_value imageData);
                              ("commerceToolsUpdate", body updateResponse)]))
          (Monolith.post_catch rt) ->
    stages (trace m) = invoked /\ monolith_caught rt e m.
Proof.
  intros Hfail m ->.
  unfold logger_info, await_productAnalysis, await_generateProductDescription,
    await_updateProductDescription, monolith_caught.
  destruct Hfail as [e Han|imageData e Han Hgen|imageData description e Han Hgen Hupd];
    rewrite Han; cbn -[String.append];
    try (rewrite Hgen; cbn -[String.append]);
    try (rewrite Hupd; cbn -[String.append]);
    (destruct e as [message|v]; [split; reflexivity|]);
    destruct (ToString rt v) as [text|e'] eqn:Hv; cbn; rewrite Hv; split; reflexivity.
Qed.

(** Past its gate, the stand-alone handler is its pipeline under the [catch]
    block. *)
Lemma monolith_gate_open
    (rt : Runtime) (services : Collaborators) (request : Request)
    (jsonData productId imageUrl : value)
    (P : M (option response) -> Prop) :
  delivers rt request jsonData ->
  identifies jsonData productId imageUrl ->
  Monolith.genDescriptionValue jsonData = Ok (VString "true") ->
  printable rt productId ->
  printable rt imageUrl ->
  (forall log m,
      stages log = [] ->
      m = try_catch
            (imageData <- await_productAnalysis services imageUrl ;;
             description <- await_generateProductDescription services imageData ;;
             logger_info ("Product Description: " ++ description) None ;;
             updateResponse <-
               await_updateProductDescription services productId description ;;
             body_text <- lift (ToString rt (body updateResponse)) ;;
             logger_info ("Product description updated successfully: " ++ body_text)
               None ;;
             send 200 (VObject [("productId", productId);
                                ("imageUrl", imageUrl);
                                ("description", VString description);
                                ("imageAnalysis", ImageData_to_value imageData);
                                ("commerceToolsUpdate", body updateResponse)]))
            (Monolith.post_catch rt) ->
      P ((log ++ trace m)%list, outcome m)) ->
  P (Monolith.post rt services request).
Proof.
  intros Hdel (Hid & Hurl & Tid & Turl) Hflag [idText Pid] [urlText Purl] Hpipeline.
  rewrite (monolith_post_delivered rt services request jsonData Hdel).
  unfold Monolith.post_event.
  rewrite Hid, bind_lift_ok, Hurl, bind_lift_ok, Tid, Turl. cbn [negb orb].
  unfold logger_info.
  rewrite Pid, bind_lift_ok, try_bind_tell, Purl, bind_lift_ok, try_bind_tell.
  rewrite Hflag, bind_lift_ok.
  change (strict_eq_string (VString "true") "true") with true. cbn [negb].
  cbn [trace outcome fst snd].
  match goal with
  | |- P (?a :: ?b :: trace ?m, outcome ?m) =>
      exact (Hpipeline [a; b] m eq_refl eq_refl)
  end.
Qed.

Lemma monolith_caught_trace rt (e : thrown) (t : list event) (m : M (option response)) :
  monolith_caught rt e m -> monolith_caught rt e (t, outcome m).
Proof.
  unfold monolith_caught, sent. destruct m as [t0 r]. cbn [outcome snd].
  destruct e as [message|v]; [auto|]. destruct (ToString rt v); auto.
Qed.

Lemma stages_logs_app (log t : list event) :
  stages log = [] -> stages (log ++ t) = stages t.
Proof. intros H. unfold stages in *. rewrite filter_app, H. reflexivity. Qed.

Lemma answers_send (code : nat) (b : value) :
  code = 200%nat \/ code = 400%nat \/ code = 500%nat -> answers (send code b).
Proof.
  intros Hcode r H. cbn in H. injection H as <-. eauto.
Qed.

Lemma answers_bind_lift {A} (r : result A) (k : A -> M (option response)) :
  (forall a, r = Ok a -> answers (k a)) -> answers (bind (lift r) k).
Proof.
  intros Hk. destruct r as [a|e].
  - rewrite bind_lift_ok. now apply Hk.
  - intros r H. discriminate H.
Qed.

Lemma answers_bind_tell (ev : event) (k : unit -> M (option response)) :
  answers (k tt) -> answers (bind (tell ev) k).
Proof.
  intros Hk r. rewrite bind_tell. exact (Hk r).
Qed.

Lemma answers_monolith_event rt services (jsonData : value) :
  answers (Monolith.post_event rt services jsonData).
Proof.
  unfold Monolith.post_event, logger_info, logger_error,
    await_productAnalysis, await_generateProductDescription,
    await_updateProductDescription.
  apply answers_bind_lift. intros productId _.
  apply answers_bind_lift. intros imageUrl _.
  destruct (negb (truthy productId) || negb (truthy imageUrl)).
  - apply answers_bind_tell, answers_send. auto.
  - apply answers_bind_lift. intros idText _. apply answers_bind_tell.
    apply answers_bind_lift. intros urlText _. apply answers_bind_tell.
    apply answers_bind_lift. intros flag _.
    destruct (negb (strict_eq_string flag "true")).
    + apply answers_bind_tell, answers_send. auto.
    + rewrite bind_assoc. apply answers_bind_tell.
      apply answers_bind_lift. intros imageData _.
      rewrite bind_assoc. apply answers_bind_tell.
      apply answers_bind_lift. intros description _.
      apply answers_bind_tell.
      rewrite bind_assoc. apply answers_bind_tell.
      apply answers_bind_lift. intros updateResponse _.
      apply answers_bind_lift. intros bodyText _.
      apply answers_bind_tell, answers_send. auto.
Qed.

Lemma answers_monolith_try rt services (request : Request) :
  answers (Monolith.post_try rt services request).
Proof.
  unfold Monolith.post_try, logger_error.
  apply answers_bind_lift. intros message _.
  destruct (negb (truthy message)).
  - apply answers_bind_tell, answers_send. auto.
  - apply answers_bind_lift. intros decoded _.
    destruct (no_data decoded).
    + apply answers_bind_tell, answers_send. auto.
    + apply answers_bind_lift. intros jsonData _.
      apply answers_monolith_event.
Qed.

(** X10.  The stand-alone handler answers every request, with status 200, 400
    or 500, with one exception: when its [try] block throws a value that is
    not an [Error] and [String(error)] throws on it, the [catch] block throws
    in its turn, the handler rejects with that error and no response is
    sent. *)
Theorem monolith_answers_unless_catch_throws
    (rt : Runtime) (services : Collaborators) (request : Request) :
  (exists resp,
      sent (Monolith.post rt services request) = Some resp
      /\ (status resp = 200%nat \/ status resp = 400%nat \/ status resp = 500%nat))
  \/ (exists v e',
        outcome (Monolith.post_try rt services request) = Throw (ThrownOther v)
        /\ ToString rt v = Throw e'
        /\ outcome (Monolith.post rt services request) = Throw e'
        /\ sent (Monolith.post rt services request) = None).
Proof.
  pose proof (answers_monolith_try rt services request) as Hanswers.
  unfold Monolith.post, try_catch.
  destruct (Monolith.post_try rt services request) as [t res].
  destruct res as [r|e].
  - left. destruct (Hanswers r eq_refl) as [resp [-> Hstatus]].
    exists resp. split; [reflexivity|exact Hstatus].
  - destruct e as [message|v].
    + left. eexists. split; [reflexivity|]. cbn. auto.
    + unfold Monolith.post_catch.
      destruct (ToString rt v) as [text|e'] eqn:Hv.
      * left. eexists. split; [reflexivity|]. cbn. auto.
      * right. exists v, e'. repeat split; try reflexivity. exact Hv.
Qed.

(** X11.  In the stand-alone handler, when a stage of an enriching request
    fails (the identifier and the image location having been converted for
    the log lines), the stages invoked are exactly those up to the failing one.
    For an [Error] the response is 500 with the error's message as details;
    for any other thrown value it is 500 with the fixed details "Unknown error
    occurred" when the value can be converted to a string, and otherwise the
    handler rejects with the conversion's error. *)
Theorem monolith_stage_failure_aborts
    (rt : Runtime) (services : Collaborators) (request : Request)
    (jsonData productId imageUrl : value) (e : thrown) (invoked : list event) :
  delivers rt request jsonData ->
  identifies jsonData productId imageUrl ->
  Monolith.genDescriptionValue jsonData = Ok (VString "true") ->
  printable rt productId ->
  printable rt imageUrl ->
  first_failure services imageUrl productId e invoked ->
  stages (trace (Monolith.post rt services request)) = invoked
  /\ match e with
     | ThrownError message =>
         sent (Monolith.post rt services request)
         = Some {| status := 500;
                   payload :=
                     VObject [("error",
                               VString "Internal server error. Failed to process request.");
                              ("details", VString message)] |}
     | ThrownOther v =>
         match ToString rt v with
         | Ok _ =>
             sent (Monolith.post rt services request)
             = Some {| status := 500;
                       payload :=
                         VObject [("error", VString "Internal server error.");
                                  ("details", VString "Unknown error occurred")] |}
         | Throw e' => outcome (Monolith.post rt services request) = Throw e'
         end
     end.
Proof.
  intros Hdel Hident Hflag Pid Purl Hfail.
  apply (monolith_gate_open rt services request jsonData productId imageUrl
           (fun m => stages (trace m) = invoked /\ monolith_caught rt e m)
           Hdel Hident Hflag Pid Purl).
  intros log m Hlog Hm.
  destruct (monolith_pipeline_fails rt services productId imageUrl e invoked Hfail m Hm)
    as [Hstages Hcaught].
  split.
  - cbn [trace fst]. rewrite (stages_logs_app log _ Hlog). exact Hstages.
  - now apply monolith_caught_trace.
Qed.

Lemma monolith_stage_failure_aborts_witness :
  stages (trace (Monolith.post Sample.rt Sample.vision_down
                   (Sample.envelope (VString "legacy"))))
  = [ProductAnalysis (VString "https://x/img.jpg")]
  /\ sent (Monolith.post Sample.rt Sample.vision_down
             (Sample.envelope (VString "legacy")))
     = Some {| status := 500;
               payload :=
                 VObject [("error",
                           VString "Internal server error. Failed to process request.");
                          ("details", VString "Vision AI service failed")] |}.
Proof.
  apply (monolith_stage_failure_aborts Sample.rt Sample.vision_down
           (Sample.envelope (VString "legacy")) Sample.legacy_enabled_event
           (VString "p-1") (VString "https://x/img.jpg")
           (ThrownError "Vision AI service failed")
           [ProductAnalysis (VString "https://x/img.jpg")]).
  - exists "legacy". split; [|reflexivity].
    exists (VObject [("data", VString "legacy")]).
    split; [reflexivity|]. split; [reflexivity|discriminate].
  - repeat split; reflexivity.
  - reflexivity.
  - exists "p-1". reflexivity.
  - exists "https://x/img.jpg". reflexivity.
  - apply analysis_fails. reflexivity.
Defined.

(** An identifier that cannot be converted to a string stops the stand-alone
    handler in its first log line: no stage runs and the answer is 500. *)
Example monolith_unprintable_identifier_is_internal_error :
  stages (trace (Monolith.post Sample.rt Sample.services
                   (Sample.envelope (VString "opaque-id")))) = []
  /\ sent (Monolith.post Sample.rt Sample.services
             (Sample.envelope (VString "opaque-id")))
     = Some {| status := 500;
               payload :=
                 VObject [("error", VString Monolith.internal_error_message);
                          ("details",
                           VString "Cannot convert object to primitive value")] |}.
Proof. split; reflexivity. Qed.

(** A stage that rejects with a value that cannot be converted to a string
    makes the [catch] block of the stand-alone handler throw: the handler
    rejects and nothing is sent. *)
Example monolith_catch_block_can_throw :
  outcome (Monolith.post Sample.rt Cases.unprintable_rejection
             (Sample.envelope (VString "legacy")))
  = Throw (ThrownError "Cannot convert object to primitive value")
  /\ sent (Monolith.post Sample.rt Cases.unprintable_rejection
             (Sample.envelope (VString "legacy"))) = None.
Proof. split; reflexivity. Qed.

(** X12.  The stand-alone handler answers a parsed event that lacks the
    product identifier or the image location with 400 and the fixed message,
    and invokes no stage. *)
Theorem monolith_rejects_anonymous_event
    (rt : Runtime) (services : Collaborators) (request : Request) (jsonData : value) :
  delivers rt request jsonData ->
  anonymous jsonData ->
  stages (trace (Monolith.post rt services request)) = []
  /\ sent (Monolith.post rt services request)
     = Some {| status := 400;
               payload := VObject [("error",
                                    VString "productId or imageUrl is missing")] |}.
Proof.
  intros Hdel (productId & imageUrl & Hid & Hurl & Hfalsy).
  rewrite (monolith_post_delivered rt services request jsonData Hdel).
  unfold Monolith.post_event.
  rewrite Hid, bind_lift_ok, Hurl, bind_lift_ok.
  assert (Hor : negb (truthy productId) || negb (truthy imageUrl) = true).
  { destruct Hfalsy as [->| ->]; [reflexivity|apply orb_true_r]. }
  rewrite Hor. split; reflexivity.
Qed.

Lemma monolith_rejects_anonymous_event_witness :
  stages (trace (Monolith.post Sample.rt Sample.services
                   (Sample.envelope (VString "anonymous")))) = []
  /\ sent (Monolith.post Sample.rt Sample.services
             (Sample.envelope (VString "anonymous")))
     = Some {| status := 400;
               payload := VObject [("error",
                                    VString "productId or imageUrl is missing")] |}.
Proof.
  apply (monolith_rejects_anonymous_event Sample.rt Sample.services
           (Sample.envelope (VString "anonymous")) Sample.anonymous_event).
  - exists "anonymous". split; [|reflexivity].
    exists (VObject [("data", VString "anonymous")]).
    split; [reflexivity|]. split; [reflexivity|discriminate].
  - exists VUndefined, (VString "https://x/img.jpg").
    split; [reflexivity|]. split; [reflexivity|]. now left.
Defined.

(** X13.  The stand-alone handler answers a body whose [message] is absent or
    falsy with 400 and the fixed message, and invokes no stage. *)
Theorem monolith_missing_message_is_rejected
    (rt : Runtime) (services : Collaborators) (request : Request) (message : value) :
  get (request_body request) "message" = Ok message ->
  truthy message = false ->
  stages (trace (Monolith.post rt services request)) = []
  /\ sent (Monolith.post rt services request)
     = Some {| status := 400;
               payload := VObject [("error", VString "No Pub/Sub message received")] |}.
Proof.
  intros Hm Tm.
  unfold Monolith.post, Monolith.post_try.
  rewrite Hm, bind_lift_ok, Tm. split; reflexivity.
Qed.

Lemma monolith_missing_message_is_rejected_witness :
  stages (trace (Monolith.post Sample.rt Sample.services
                   {| request_body := VObject [] |})) = []
  /\ sent (Monolith.post Sample.rt Sample.services {| request_body := VObject [] |})
     = Some {| status := 400;
               payload := VObject [("error", VString "No Pub/Sub message received")] |}.
Proof.
  apply (monolith_missing_message_is_rejected Sample.rt Sample.services
           {| request_body := VObject [] |} VUndefined); reflexivity.
Defined.

(* ================================================================== *)
(** ** The repository function and its copy *)

(** X14.  The repository function writes its success line to the log exactly
    when it resolves. *)
Theorem update_logs_success_iff_resolved
    (apiRoot : ProductRepository.ApiRoot) (productId : value) (description : string) :
  In (Log InfoLevel "✅ Product description updated successfully in Commerce Tools." None)
     (trace (ProductRepository.updateProductDescription apiRoot productId description))
  <-> exists updateResponse,
      outcome (ProductRepository.updateProductDescription apiRoot productId description)
      = Ok updateResponse.
Proof.
  unfold ProductRepository.updateProductDescription,
    ProductRepository.products_get, ProductRepository.products_post, logger_info.
  destruct (ProductRepository.get_execute apiRoot productId) as [productResponse|e].
  2:{ cbn. split.
      - intros [H|[H|[]]]; discriminate.
      - intros [u H]. discriminate. }
  cbn -[get].
  destruct (get (body productResponse) "version") as [currentVersion|e].
  2:{ cbn. split.
      - intros [H|[H|[]]]; discriminate.
      - intros [u H]. discriminate. }
  cbn -[get].
  destruct (ProductRepository.post_execute apiRoot productId
              (ProductRepository.update_body currentVersion description))
    as [updateResponse|e]; cbn.
  - split; [eauto|]. intros _. right; right; right. now left.
  - split.
    + intros [H|[H|[H|[]]]]; discriminate.
    + intros [u H]. discriminate.
Qed.

(** X15.  When the fetch resolves with a [null] (or [undefined]) body, the
    repository function rejects with the TypeError of reading [version], and
    the fetch is the only request sent to the catalog. *)
Theorem missing_product_body_aborts_update
    (apiRoot : ProductRepository.ApiRoot) (productId : value) (description : string)
    (productResponse : ClientResponse) :
  ProductRepository.get_execute apiRoot productId = Ok productResponse ->
  nullish (body productResponse) = true ->
  outcome (ProductRepository.updateProductDescription apiRoot productId description)
  = Throw (ThrownError ("Cannot read properties of " ++ nullish_name (body productResponse)
                        ++ " (reading 'version')"))
  /\ catalog_requests
       (trace (ProductRepository.updateProductDescription apiRoot productId description))
     = [ProductsGet productId].
Proof.
  intros Hget Hnull.
  unfold ProductRepository.updateProductDescription,
    ProductRepository.products_get, ProductRepository.products_post, logger_info.
  rewrite Hget. cbn -[get].
  destruct (body productResponse); try discriminate Hnull; split; reflexivity.
Qed.

Lemma missing_product_body_aborts_update_witness :
  outcome (ProductRepository.updateProductDescription Cases.lost_catalog
             (VString "p-1") "A beautiful cotton shirt.")
  = Throw (ThrownError ("Cannot read properties of " ++ nullish_name VNull
                        ++ " (reading 'version')"))
  /\ catalog_requests
       (trace (ProductRepository.updateProductDescription Cases.lost_catalog
                 (VString "p-1") "A beautiful cotton shirt."))
     = [ProductsGet (VString "p-1")].
Proof.
  apply (missing_product_body_aborts_update Cases.lost_catalog (VString "p-1")
           "A beautiful cotton shirt." {| body := VNull |}); reflexivity.
Defined.

(** X16.  The copy of [updateProductDescription] in the stand-alone handler
    file issues the same catalog requests and settles the same way as the
    repository function; only the log lines are missing. *)
Theorem standalone_update_is_repository_update
    (apiRoot : ProductRepository.ApiRoot) (productId : value) (description : string) :
  trace (Standalone.updateProductDescription apiRoot productId description)
  = unlogged (trace (ProductRepository.updateProductDescription apiRoot productId
                       description))
  /\ outcome (Standalone.updateProductDescription apiRoot productId description)
     = outcome (ProductRepository.updateProductDescription apiRoot productId description).
Proof.
  unfold Standalone.updateProductDescription, ProductRepository.updateProductDescription,
    ProductRepository.products_get, ProductRepository.products_post, logger_info.
  destruct (ProductRepository.get_execute apiRoot productId) as [productResponse|e];
    [|split; reflexivity].
  cbn -[get].
  destruct (get (body productResponse) "version") as [currentVersion|e];
    [|split; reflexivity].
  cbn -[get].
  destruct (ProductRepository.post_execute apiRoot productId
              (ProductRepository.update_body currentVersion description));
    split; reflexivity.
Qed.


(* ================================================================== *)
(** ** More on the image analysis structure *)

Lemma or_string_nonempty (x : option string) (fallback : string) :
  fallback <> "" -> VisionAnalysis.or_string x fallback <> "".
Proof.
  intros Hf. unfold VisionAnalysis.or_string.
  destruct x as [s|]; [|exact Hf].
  destruct (String.eqb s "") eqn:E; [exact Hf|].
  now apply String.eqb_neq.
Qed.

Lemma image_data_fields (r : Vision.AnnotateImageResponse) (d : ImageData) :
  VisionAnalysis.image_data_of r = Ok d ->
  labels d
  = VisionAnalysis.or_string
      (option_map (fun ls => VisionAnalysis.join ", " (map Vision.description ls))
                  (Vision.labelAnnotations r))
      "No labels detected"
  /\ objects d
     = VisionAnalysis.or_string
         (option_map (fun os => VisionAnalysis.join ", " (map Vision.name os))
                     (Vision.localizedObjectAnnotations r))
         "No objects detected"
  /\ detectedText d
     = VisionAnalysis.or_string (VisionAnalysis.first_text r) "No text detected".
Proof.
  unfold VisionAnalysis.image_data_of. intros H.
  destruct (match VisionAnalysis.dominant_colors r with
            | Some cs => _ | None => _ end); [|discriminate].
  unfold and_then in H. injection H as <-. repeat split; reflexivity.
Qed.

(** X17.  The four textual fields of an [ImageData] that [getImageData]
    returns are never the empty string. *)
Theorem image_data_text_is_never_empty (r : Vision.AnnotateImageResponse) (d : ImageData) :
  VisionAnalysis.image_data_of r = Ok d ->
  labels d <> "" /\ objects d <> "" /\ detectedText d <> "" /\ webEntities d <> "".
Proof.
  intros H.
  destruct (image_data_fields r d H) as (-> & -> & ->).
  rewrite (image_data_web_entities r d H).
  repeat split; apply or_string_nonempty; discriminate.
Qed.

Lemma image_data_text_is_never_empty_witness :
  labels Cases.rich_data <> "" /\ objects Cases.rich_data <> ""
  /\ detectedText Cases.rich_data <> "" /\ webEntities Cases.rich_data <> "".
Proof.
  apply (image_data_text_is_never_empty Cases.rich Cases.rich_data).
  reflexivity.
Defined.

Lemma image_data_colors_capped_witness :
  (List.length (colors Cases.rich_data) <= 3)%nat.
Proof.
  apply (image_data_colors_capped Cases.rich Cases.rich_data).
  reflexivity.
Defined.

Lemma image_data_web_entities_capped_witness :
  webEntities Cases.rich_data = "a, b, c, d, e".
Proof.
  apply (image_data_web_entities_capped Cases.rich Cases.richer
           Cases.rich_data Cases.rich_data
           [Cases.entity "a"; Cases.entity "b"; Cases.entity "c"; Cases.entity "d";
            Cases.entity "e"; Cases.entity "f"]
           [Cases.entity "a"; Cases.entity "b"; Cases.entity "c"; Cases.entity "d";
            Cases.entity "e"; Cases.entity "f"; Cases.entity "g"]);
    reflexivity.
Defined.

Lemma image_data_fallbacks_witness :
  labels {| labels := "No labels detected";
            objects := "No objects detected";
            colors := [];
            detectedText := "No text detected";
            webEntities := "No web entities detected" |} = "No labels detected".
Proof.
  apply (proj1 (image_data_fallbacks Sample.no_colors _ eq_refl)).
  right. reflexivity.
Defined.

Lemma map_result_format_color (cs : list Vision.ColorInfo) :
  (exists formatted, VisionAnalysis.map_result VisionAnalysis.format_color cs = Ok formatted)
  <-> Forall (fun c => Vision.color c <> None) cs.
Proof.
  induction cs as [|c cs IH]; simpl.
  - split; [constructor|eauto].
  - unfold VisionAnalysis.format_color at 1.
    destruct (Vision.color c) as [rgb|] eqn:Hc; simpl.
    + destruct (VisionAnalysis.map_result VisionAnalysis.format_color cs) as [ys|e];
        simpl.
      * split; [|eauto]. intros _. constructor; [congruence|]. apply IH. eauto.
      * split.
        -- intros [f H]. discriminate.
        -- intros H. inversion H; subst.
           match goal with Hall : Forall _ cs |- _ => apply IH in Hall; destruct Hall; discriminate end.
    + split.
      * intros [f H]. discriminate.
      * intros H. inversion H; subst. congruence.
Qed.

(** X21.  On an annotation result, building the [ImageData] succeeds exactly
    when each of the first three dominant colors has its [color]; entries from
    the fourth on are never inspected. *)
Theorem image_data_defined_iff_first_colors_wellformed (r : Vision.AnnotateImageResponse) :
  (exists d, VisionAnalysis.image_data_of r = Ok d)
  <-> forall cs,
      VisionAnalysis.dominant_colors r = Some cs ->
      Forall (fun c => Vision.color c <> None) (firstn 3 cs).
Proof.
  unfold VisionAnalysis.image_data_of.
  destruct (VisionAnalysis.dominant_colors r) as [cs|].
  - split.
    + intros [d H] cs' Hcs. injection Hcs as <-.
      apply map_result_format_color.
      destruct (VisionAnalysis.map_result VisionAnalysis.format_color (firstn 3 cs));
        [eauto|discriminate].
    + intros H. specialize (H cs eq_refl).
      apply map_result_format_color in H. destruct H as [formatted ->].
      cbn. eauto.
  - split; [discriminate|]. intros _. cbn. eauto.
Qed.

Example fourth_color_is_not_inspected :
  VisionAnalysis.image_data_of Cases.rich = Ok Cases.rich_data.
Proof. reflexivity. Qed.

(* ================================================================== *)
(** ** Text generation *)

(** X22.  When [generateEnhancedDescription] resolves, its text is not empty
    and is the text of the first part of the first candidate of the model's
    answer to the prompt. *)
Theorem enhanced_description_is_never_empty
    (sendMessage : string -> result Vertex.GenerateContentResult)
    (imageData : ImageData) (description : string) :
  outcome (Standalone.generateEnhancedDescription sendMessage imageData) = Ok description ->
  description <> ""
  /\ exists r,
      sendMessage (Standalone.prompt_text imageData) = Ok r
      /\ Standalone.first_part_text r = Some description.
Proof.
  unfold Standalone.generateEnhancedDescription.
  destruct (sendMessage (Standalone.prompt_text imageData)) as [r|e]; [|discriminate].
  rewrite bind_lift_ok.
  destruct (Standalone.first_part_text r) as [t|] eqn:Ht; [|discriminate].
  destruct (String.eqb t "") eqn:E; [discriminate|].
  cbn. intros H. injection H as <-.
  split; [now apply String.eqb_neq|eauto].
Qed.

Lemma enhanced_description_is_never_empty_witness :
  "A beautiful cotton shirt." <> ""
  /\ exists r,
      Cases.chat (Standalone.prompt_text Cases.rich_data) = Ok r
      /\ Standalone.first_part_text r = Some "A beautiful cotton shirt.".
Proof.
  apply (enhanced_description_is_never_empty Cases.chat Cases.rich_data).
  reflexivity.
Defined.

(** X23.  When the model's answer has no first-candidate first-part text, or
    an empty one, [generateEnhancedDescription] rejects with the fixed error
    "No valid response received from the model" and logs nothing. *)
Theorem answer_without_text_is_rejected
    (sendMessage : string -> result Vertex.GenerateContentResult)
    (imageData : ImageData) (r : Vertex.GenerateContentResult) :
  sendMessage (Standalone.prompt_text imageData) = Ok r ->
  Standalone.first_part_text r = None \/ Standalone.first_part_text r = Some "" ->
  Standalone.generateEnhancedDescription sendMessage imageData
  = ([], Throw (ThrownError "No valid response received from the model")).
Proof.
  intros Hsend Hempty. unfold Standalone.generateEnhancedDescription.
  rewrite Hsend, bind_lift_ok.
  destruct Hempty as [-> | ->]; reflexivity.
Qed.

Lemma answer_without_text_is_rejected_witness :
  Standalone.generateEnhancedDescription Cases.silent_chat Cases.rich_data
  = ([], Throw (ThrownError "No valid response received from the model")).
Proof.
  apply (answer_without_text_is_rejected Cases.silent_chat Cases.rich_data
           (Cases.answer (Some ""))).
  - reflexivity.
  - right. reflexivity.
Defined.

(** X24.  The generation service settles as the model call does: it resolves
    to the model's text unchanged, and it rejects with the very value the model
    call (or reading its text) threw, provided that value is not [null] or
    [undefined]. *)
Theorem generation_service_settles_as_model
    (generateContent : string -> result DescriptionGeneration.GenerateContentResult)
    (Error_stack : string -> value) (imageData : ImageData) :
  (forall v,
      (r <-? generateContent (DescriptionGeneration.prompt imageData) ;;
       DescriptionGeneration.response_text r) = Throw (ThrownOther v) ->
      nullish v = false) ->
  outcome (DescriptionGeneration.generateProductDescription generateContent Error_stack
             imageData)
  = (r <-? generateContent (DescriptionGeneration.prompt imageData) ;;
     DescriptionGeneration.response_text r).
Proof.
  intros Hnn. unfold DescriptionGeneration.generateProductDescription, logger_info,
    logger_error.
  destruct (generateContent (DescriptionGeneration.prompt imageData)) as [r|e].
  - cbn in Hnn |- *.
    destruct (DescriptionGeneration.response_text r) as [t|e]; [reflexivity|].
    destruct e as [message|v]; [reflexivity|].
    specialize (Hnn v eq_refl). destruct v; try discriminate Hnn; reflexivity.
  - cbn in Hnn |- *.
    destruct e as [message|v]; [reflexivity|].
    specialize (Hnn v eq_refl). destruct v; try discriminate Hnn; reflexivity.
Qed.

Lemma generation_service_settles_as_model_witness :
  outcome (DescriptionGeneration.generateProductDescription Cases.failing_model
             Cases.Error_stack Cases.rich_data)
  = Throw (ThrownError "Generation failed").
Proof.
  apply (generation_service_settles_as_model Cases.failing_model Cases.Error_stack
           Cases.rich_data).
  intros v H. discriminate H.
Defined.

(** X25.  When the model call rejects with [null] or [undefined], the [catch]
    block of the generation service throws while reading [error.message]: the
    service rejects with that TypeError instead, and no error line is
    logged. *)
Theorem nullish_rejection_is_masked
    (generateContent : string -> result DescriptionGeneration.GenerateContentResult)
    (Error_stack : string -> value) (imageData : ImageData) (v : value) :
  (r <-? generateContent (DescriptionGeneration.prompt imageData) ;;
   DescriptionGeneration.response_text r) = Throw (ThrownOther v) ->
  nullish v = true ->
  outcome (DescriptionGeneration.generateProductDescription generateContent Error_stack
             imageData)
  = Throw (ThrownError ("Cannot read properties of " ++ nullish_name v
                        ++ " (reading 'message')"))
  /\ filter is_error_log
       (trace (DescriptionGeneration.generateProductDescription generateContent
                 Error_stack imageData)) = [].
Proof.
  intros Hmodel Hnull.
  unfold DescriptionGeneration.generateProductDescription, logger_info, logger_error.
  destruct (generateContent (DescriptionGeneration.prompt imageData)) as [r|e].
  - cbn in Hmodel |- *.
    destruct (DescriptionGeneration.response_text r) as [t|e]; [discriminate|].
    injection Hmodel as ->.
    destruct v; try discriminate Hnull; split; reflexivity.
  - cbn in Hmodel |- *. injection Hmodel as ->.
    destruct v; try discriminate Hnull; split; reflexivity.
Qed.

Lemma nullish_rejection_is_masked_witness :
  outcome (DescriptionGeneration.generateProductDescription Cases.void_model
             Cases.Error_stack Cases.rich_data)
  = Throw (ThrownError ("Cannot read properties of " ++ nullish_name VUndefined
                        ++ " (reading 'message')"))
  /\ filter is_error_log
       (trace (DescriptionGeneration.generateProductDescription Cases.void_model
                 Cases.Error_stack Cases.rich_data)) = [].
Proof.
  apply (nullish_rejection_is_masked Cases.void_model Cases.Error_stack Cases.rich_data
           VUndefined); reflexivity.
Defined.


(* ================================================================== *)
(** ** The handlers over the stages of this repository *)

(** The controller on an enriching request whose pipeline fails. *)
Lemma controller_failure_run
    (rt : Runtime) (services : Collaborators) (request : Request)
    (jsonData productId imageUrl : value) (e : thrown) (invoked : list event) :
  delivers rt request jsonData ->
  identifies jsonData productId imageUrl ->
  EventController.genDescriptionValue jsonData = Ok (VString "true") ->
  first_failure services imageUrl productId e invoked ->
  stages (trace (EventController.post rt services request)) = invoked
  /\ sent (EventController.post rt services request)
     = Some {| status := 500; payload := failure_payload e |}.
Proof.
  intros Hdel (Hid & Hurl & Tid & Turl) Hflag Hfail.
  rewrite (post_delivered rt services request jsonData Hdel).
  enter_event Hid;
    rewrite ?bind_tell, ?bind_ret, Hid, bind_lift_ok, Hurl, bind_lift_ok, Tid, Turl,
      Hflag, bind_lift_ok;
    unfold await_productAnalysis, await_generateProductDescription,
      await_updateProductDescription;
    cbn -[String.append];
    destruct Hfail as [e Han|imageData e Han Hgen|imageData description e Han Hgen Hupd];
    rewrite Han; cbn; try (rewrite Hgen; cbn); try (rewrite Hupd; cbn);
    destruct e; split; reflexivity.
Qed.

(** The controller on an enriching request whose pipeline resolves. *)
Lemma controller_success_run
    (rt : Runtime) (services : Collaborators) (request : Request)
    (jsonData productId imageUrl : value)
    (imageData : ImageData) (description : string) (updateResponse : ClientResponse) :
  delivers rt request jsonData ->
  identifies jsonData productId imageUrl ->
  EventController.genDescriptionValue jsonData = Ok (VString "true") ->
  productAnalysis services imageUrl = Ok imageData ->
  generateProductDescription services imageData = Ok description ->
  updateProductDescription services productId description = Ok updateResponse ->
  sent (EventController.post rt services request)
  = Some {| status := 200;
            payload := VObject [("productId", productId);
                                ("imageUrl", imageUrl);
                                ("description", VString description);
                                ("productAnalysis", ImageData_to_value imageData);
                                ("commerceToolsUpdate", body updateResponse)] |}.
Proof.
  intros Hdel (Hid & Hurl & Tid & Turl) Hflag Han Hgen Hupd.
  rewrite (post_delivered rt services request jsonData Hdel).
  enter_event Hid;
    rewrite ?bind_tell, ?bind_ret, Hid, bind_lift_ok, Hurl, bind_lift_ok, Tid, Turl,
      Hflag, bind_lift_ok;
    unfold await_productAnalysis, await_generateProductDescription,
      await_updateProductDescription;
    cbn -[String.append ImageData_to_value];
    rewrite Han; cbn -[ImageData_to_value]; rewrite Hgen; cbn -[ImageData_to_value];
    rewrite Hupd; reflexivity.
Qed.

Lemma getImageData_outcome annotateImage (imageUrl : value) :
  outcome (VisionAnalysis.getImageData annotateImage imageUrl)
  = (r <-? annotateImage imageUrl ;; VisionAnalysis.image_data_of r).
Proof.
  unfold VisionAnalysis.getImageData.
  destruct (annotateImage imageUrl) as [r|e]; [|reflexivity].
  cbn. destruct (VisionAnalysis.image_data_of r); reflexivity.
Qed.

Lemma repository_update_outcome apiRoot (productId : value) (description : string) :
  outcome (ProductRepository.updateProductDescription apiRoot productId description)
  = (productResponse <-? ProductRepository.get_execute apiRoot productId ;;
     currentVersion <-? get (body productResponse) "version" ;;
     ProductRepository.post_execute apiRoot productId
       (ProductRepository.update_body currentVersion description)).
Proof.
  unfold ProductRepository.updateProductDescription,
    ProductRepository.products_get, ProductRepository.products_post, logger_info.
  destruct (ProductRepository.get_execute apiRoot productId) as [productResponse|e];
    [|reflexivity].
  cbn -[get].
  destruct (get (body productResponse) "version") as [currentVersion|e];
    [|reflexivity].
  cbn -[get].
  destruct (ProductRepository.post_execute apiRoot productId
              (ProductRepository.update_body currentVersion description));
    reflexivity.
Qed.

(** X26.  The stand-alone handler over its own stages: when the identifier
    and the image location can be converted for the log lines, image analysis
    resolves and the model's answer carries no text, the request ends in 500
    with details "No valid response received from the model", and persistence
    is not invoked. *)
Theorem standalone_answer_without_text_is_internal_error
    (rt : Runtime) (request : Request) (jsonData productId imageUrl : value)
    (annotateImage : value -> result Vision.AnnotateImageResponse)
    (sendMessage : string -> result Vertex.GenerateContentResult)
    (apiRoot : ProductRepository.ApiRoot)
    (annotations : Vision.AnnotateImageResponse) (imageData : ImageData)
    (r : Vertex.GenerateContentResult) :
  delivers rt request jsonData ->
  identifies jsonData productId imageUrl ->
  Monolith.genDescriptionValue jsonData = Ok (VString "true") ->
  printable rt productId ->
  printable rt imageUrl ->
  annotateImage imageUrl = Ok annotations ->
  VisionAnalysis.image_data_of annotations = Ok imageData ->
  sendMessage (Standalone.prompt_text imageData) = Ok r ->
  Standalone.first_part_text r = None \/ Standalone.first_part_text r = Some "" ->
  stages (trace (Monolith.post rt (standalone_services annotateImage sendMessage apiRoot)
                   request))
  = [ProductAnalysis imageUrl; GenerateDescription imageData]
  /\ sent (Monolith.post rt (standalone_services annotateImage sendMessage apiRoot)
             request)
     = Some {| status := 500;
               payload :=
                 VObject [("error",
                           VString "Internal server error. Failed to process request.");
                          ("details",
                           VString "No valid response received from the model")] |}.
Proof.
  intros Hdel Hident Hflag Pid Purl Hannot Hdata Hsend Hempty.
  apply (monolith_gate_open rt (standalone_services annotateImage sendMessage apiRoot)
           request jsonData productId imageUrl
           (fun m =>
              stages (trace m)
              = [ProductAnalysis imageUrl; GenerateDescription imageData]
              /\ monolith_caught rt Standalone.no_valid_response m)
           Hdel Hident Hflag Pid Purl).
  intros log m Hlog Hm.
  assert (Hfail : first_failure (standalone_services annotateImage sendMessage apiRoot)
                    imageUrl productId Standalone.no_valid_response
                    [ProductAnalysis imageUrl; GenerateDescription imageData]).
  { apply (generation_fails _ _ _ imageData).
    - cbn [standalone_services productAnalysis].
      rewrite getImageData_outcome, Hannot. exact Hdata.
    - cbn [standalone_services generateProductDescription].
      unfold Standalone.generateEnhancedDescription.
      rewrite Hsend, bind_lift_ok.
      destruct Hempty as [-> | ->]; reflexivity. }
  destruct (monolith_pipeline_fails rt _ productId imageUrl _ _ Hfail m Hm)
    as [Hstages Hcaught].
  split.
  - cbn [trace fst]. rewrite (stages_logs_app log _ Hlog). exact Hstages.
  - now apply monolith_caught_trace.
Qed.

(** X27.  The controller over the generation service and the repository:
    when analysis and generation resolve and the catalog answers the fetch
    with a [null] body, all three stages were invoked and the request ends in
    500 with the TypeError of reading [version] as details. *)
Theorem controller_missing_product_is_internal_error
    (rt : Runtime) (request : Request) (jsonData productId imageUrl : value)
    (analysis : value -> result ImageData)
    (generateContent : string -> result DescriptionGeneration.GenerateContentResult)
    (Error_stack : string -> value)
    (apiRoot : ProductRepository.ApiRoot)
    (imageData : ImageData) (description : string)
    (r : DescriptionGeneration.GenerateContentResult)
    (productResponse : ClientResponse) :
  delivers rt request jsonData ->
  identifies jsonData productId imageUrl ->
  EventController.genDescriptionValue jsonData = Ok (VString "true") ->
  analysis imageUrl = Ok imageData ->
  generateContent (DescriptionGeneration.prompt imageData) = Ok r ->
  DescriptionGeneration.response_text r = Ok description ->
  ProductRepository.get_execute apiRoot productId = Ok productResponse ->
  nullish (body productResponse) = true ->
  stages (trace (EventController.post rt
                   (controller_services analysis generateContent Error_stack apiRoot)
                   request))
  = [ProductAnalysis imageUrl; GenerateDescription imageData;
     UpdateDescription productId description]
  /\ sent (EventController.post rt
             (controller_services analysis generateContent Error_stack apiRoot)
             request)
     = Some {| status := 500;
               payload :=
                 VObject [("error", VString EventController.internal_error_message);
                          ("details",
                           VString ("Cannot read properties of "
                                    ++ nullish_name (body productResponse)
                                    ++ " (reading 'version')"))] |}.
Proof.
  intros Hdel Hident Hflag Han Hgen Htext Hget Hnull.
  apply (controller_failure_run rt
           (controller_services analysis generateContent Error_stack apiRoot)
           request jsonData productId imageUrl
           (TypeError_read (body productResponse) "version")
           [ProductAnalysis imageUrl; GenerateDescription imageData;
            UpdateDescription productId description] Hdel Hident Hflag).
  apply (persistence_fails _ _ _ imageData description).
  - exact Han.
  - cbn [controller_services generateProductDescription].
    unfold DescriptionGeneration.generateProductDescription, logger_info.
    rewrite Hgen. cbn. rewrite Htext. reflexivity.
  - cbn [controller_services updateProductDescription].
    rewrite repository_update_outcome, Hget. cbn [and_then].
    destruct (body productResponse); try discriminate Hnull; reflexivity.
Qed.

(** X28.  The controller over the generation service and the repository: the
    text the model returned is the description in the 200 response, and
    [commerceToolsUpdate] is the body of the catalog's answer to the update
    that stores this text under [en] at the fetched version. *)
Theorem controller_stores_the_description_it_returns
    (rt : Runtime) (request : Request) (jsonData productId imageUrl : value)
    (analysis : value -> result ImageData)
    (generateContent : string -> result DescriptionGeneration.GenerateContentResult)
    (Error_stack : string -> value)
    (apiRoot : ProductRepository.ApiRoot)
    (imageData : ImageData) (description : string)
    (r : DescriptionGeneration.GenerateContentResult)
    (currentVersion : value) (updateResponse : ClientResponse) :
  delivers rt request jsonData ->
  identifies jsonData productId imageUrl ->
  EventController.genDescriptionValue jsonData = Ok (VString "true") ->
  analysis imageUrl = Ok imageData ->
  generateContent (DescriptionGeneration.prompt imageData) = Ok r ->
  DescriptionGeneration.response_text r = Ok description ->
  ProductRepository.fetched_version apiRoot productId = Ok currentVersion ->
  ProductRepository.post_execute apiRoot productId
    (VObject [("version", currentVersion);
              ("actions",
               VArray [VObject [("action", VString "setDescription");
                                ("description",
                                 VObject [("en", VString description)])]])])
  = Ok updateResponse ->
  sent (EventController.post rt
          (controller_services analysis generateContent Error_stack apiRoot) request)
  = Some {| status := 200;
            payload := VObject [("productId", productId);
                                ("imageUrl", imageUrl);
                                ("description", VString description);
                                ("productAnalysis", ImageData_to_value imageData);
                                ("commerceToolsUpdate", body updateResponse)] |}.
Proof.
  intros Hdel Hident Hflag Han Hgen Htext Hversion Hpost.
  apply (controller_success_run rt
           (controller_services analysis generateContent Error_stack apiRoot)
           request jsonData productId imageUrl imageData description updateResponse
           Hdel Hident Hflag Han).
  - cbn [controller_services generateProductDescription].
    unfold DescriptionGeneration.generateProductDescription, logger_info.
    rewrite Hgen. cbn. rewrite Htext. reflexivity.
  - cbn [controller_services updateProductDescription].
    rewrite (update_resolves_to_update_response apiRoot productId description
               currentVersion Hversion).
    exact Hpost.
Qed.

(** X29.  The stand-alone handler over its own stages, when the identifier,
    the image location and the body of the catalog's answer can be converted
    for the log lines: the non-empty text of the model's answer is the
    description in the 200 response, [imageAnalysis] is the structure built
    from the annotation result, and [commerceToolsUpdate] is the body of the
    catalog's answer to the update that stores this text under [en] at the
    fetched version. *)
Theorem standalone_stores_the_description_it_returns
    (rt : Runtime) (request : Request) (jsonData productId imageUrl : value)
    (annotateImage : value -> result Vision.AnnotateImageResponse)
    (sendMessage : string -> result Vertex.GenerateContentResult)
    (apiRoot : ProductRepository.ApiRoot)
    (annotations : Vision.AnnotateImageResponse) (imageData : ImageData)
    (r : Vertex.GenerateContentResult) (description : string)
    (currentVersion : value) (updateResponse : ClientResponse) :
  delivers rt request jsonData ->
  identifies jsonData productId imageUrl ->
  Monolith.genDescriptionValue jsonData = Ok (VString "true") ->
  printable rt productId ->
  printable rt imageUrl ->
  annotateImage imageUrl = Ok annotations ->
  VisionAnalysis.image_data_of annotations = Ok imageData ->
  sendMessage (Standalone.prompt_text imageData) = Ok r ->
  Standalone.first_part_text r = Some description ->
  description <> "" ->
  ProductRepository.fetched_version apiRoot productId = Ok currentVersion ->
  ProductRepository.post_execute apiRoot productId
    (VObject [("version", currentVersion);
              ("actions",
               VArray [VObject [("action", VString "setDescription");
                                ("description",
                                 VObject [("en", VString description)])]])])
  = Ok updateResponse ->
  printable rt (body updateResponse) ->
  sent (Monolith.post rt (standalone_services annotateImage sendMessage apiRoot) request)
  = Some {| status := 200;
            payload := VObject [("productId", productId);
                                ("imageUrl", imageUrl);
                                ("description", VString description);
                                ("imageAnalysis", ImageData_to_value imageData);
                                ("commerceToolsUpdate", body updateResponse)] |}.
Proof.
  intros Hdel Hident Hflag Pid Purl Hannot Hdata Hsend Htext Hne Hversion Hpost Pbody.
  apply (monolith_enriching_request_runs_pipeline rt
           (standalone_services annotateImage sendMessage apiRoot)
           request jsonData productId imageUrl imageData description updateResponse
           Hdel Hident Hflag Pid Purl).
  - cbn [standalone_services productAnalysis].
    rewrite getImageData_outcome, Hannot. exact Hdata.
  - cbn [standalone_services generateProductDescription].
    unfold Standalone.generateEnhancedDescription.
    rewrite Hsend, bind_lift_ok, Htext.
    apply String.eqb_neq in Hne. rewrite Hne. reflexivity.
  - cbn [standalone_services updateProductDescription].
    unfold ProductRepository.fetched_version in Hversion.
    unfold Standalone.updateProductDescription, ProductRepository.products_get,
      ProductRepository.products_post.
    destruct (ProductRepository.get_execute apiRoot productId) as [productResponse|e];
      [|discriminate].
    cbn [and_then] in Hversion. cbn -[get]. rewrite Hversion. cbn -[get].
    unfold ProductRepository.update_body, ProductRepository.setDescription.
    rewrite Hpost. reflexivity.
  - exact Pbody.
Qed.

(* ================================================================== *)
(** ** Further instances *)

Lemma anonymous_event_is_dropped_witness :
  stages (trace (EventController.post Sample.rt Sample.services
                   (Sample.envelope (VString "empty-id")))) = []
  /\ sent (EventController.post Sample.rt Sample.services
             (Sample.envelope (VString "empty-id"))) = None.
Proof.
  apply (anonymous_event_is_dropped Sample.rt Sample.services
           (Sample.envelope (VString "empty-id")) Sample.empty_id_event).
  - exists "empty-id". split; [|reflexivity].
    exists (VObject [("data", VString "empty-id")]).
    split; [reflexivity|]. split; [reflexivity|discriminate].
  - exists (VString ""), (VString "https://x/img.jpg").
    split; [reflexivity|]. split; [reflexivity|]. now left.
Defined.

Lemma genDescriptionValue_total_witness :
  exists flag, EventController.genDescriptionValue Sample.repeated_flag_event = Ok flag.
Proof.
  apply (genDescriptionValue_total Sample.repeated_flag_event
           (VArray [Sample.attribute "color" (VString "red");
                    Sample.attribute "generateDescription" (VString "true");
                    Sample.attribute "generateDescription" (VString "false")])).
  - reflexivity.
  - right. eexists. split; [reflexivity|].
    repeat constructor.
Defined.

Lemma update_logs_success_iff_resolved_witness :
  In (Log InfoLevel "✅ Product description updated successfully in Commerce Tools." None)
     (trace (ProductRepository.updateProductDescription Sample.catalog
               (VString "p-1") "A beautiful cotton shirt.")).
Proof.
  apply (proj2 (update_logs_success_iff_resolved Sample.catalog (VString "p-1")
                  "A beautiful cotton shirt.")).
  eexists. reflexivity.
Defined.

Lemma image_data_defined_iff_first_colors_wellformed_witness :
  exists d, VisionAnalysis.image_data_of Cases.rich = Ok d.
Proof.
  apply (proj2 (image_data_defined_iff_first_colors_wellformed Cases.rich)).
  intros cs H. injection H as <-.
  repeat constructor; discriminate.
Defined.

Lemma standalone_answer_without_text_is_internal_error_witness :
  stages (trace (Monolith.post Sample.rt
                   (standalone_services Cases.annotateImage Cases.silent_chat
                      Sample.catalog)
                   (Sample.envelope (VString "legacy"))))
  = [ProductAnalysis (VString "https://x/img.jpg"); GenerateDescription Cases.rich_data]
  /\ sent (Monolith.post Sample.rt
             (standalone_services Cases.annotateImage Cases.silent_chat Sample.catalog)
             (Sample.envelope (VString "legacy")))
     = Some {| status := 500;
               payload :=
                 VObject [("error",
                           VString "Internal server error. Failed to process request.");
                          ("details",
                           VString "No valid response received from the model")] |}.
Proof.
  apply (standalone_answer_without_text_is_internal_error Sample.rt
           (Sample.envelope (VString "legacy")) Sample.legacy_enabled_event
           (VString "p-1") (VString "https://x/img.jpg")
           Cases.annotateImage Cases.silent_chat Sample.catalog
           Cases.rich Cases.rich_data (Cases.answer (Some ""))).
  - exists "legacy". split; [|reflexivity].
    exists (VObject [("data", VString "legacy")]).
    split; [reflexivity|]. split; [reflexivity|discriminate].
  - repeat split; reflexivity.
  - reflexivity.
  - exists "p-1". reflexivity.
  - exists "https://x/img.jpg". reflexivity.
  - reflexivity.
  - reflexivity.
  - reflexivity.
  - right. reflexivity.
Defined.

Lemma controller_missing_product_is_internal_error_witness :
  stages (trace (EventController.post Sample.rt
                   (controller_services (fun _ => Ok Sample.shirt) Cases.model
                      Cases.Error_stack Cases.lost_catalog)
                   (Sample.envelope (VString "enabled"))))
  = [ProductAnalysis (VString "https://x/img.jpg"); GenerateDescription Sample.shirt;
     UpdateDescription (VString "p-1") "A beautiful cotton shirt."]
  /\ sent (EventController.post Sample.rt
             (controller_services (fun _ => Ok Sample.shirt) Cases.model
                Cases.Error_stack Cases.lost_catalog)
             (Sample.envelope (VString "enabled")))
     = Some {| status := 500;
               payload :=
                 VObject [("error", VString EventController.internal_error_message);
                          ("details",
                           VString ("Cannot read properties of " ++ nullish_name VNull
                                    ++ " (reading 'version')"))] |}.
Proof.
  apply (controller_missing_product_is_internal_error Sample.rt
           (Sample.envelope (VString "enabled")) Sample.enabled_event
           (VString "p-1") (VString "https://x/img.jpg")
           (fun _ => Ok Sample.shirt) Cases.model Cases.Error_stack Cases.lost_catalog
           Sample.shirt "A beautiful cotton shirt."
           {| DescriptionGeneration.response_text := Ok "A beautiful cotton shirt." |}
           {| body := VNull |}).
  - exists "enabled". split; [|reflexivity].
    exists (VObject [("data", VString "enabled")]).
    split; [reflexivity|]. split; [reflexivity|discriminate].
  - repeat split; reflexivity.
  - reflexivity.
  - reflexivity.
  - reflexivity.
  - reflexivity.
  - reflexivity.
  - reflexivity.
Defined.

Lemma controller_stores_the_description_it_returns_witness :
  sent (EventController.post Sample.rt
          (controller_services (fun _ => Ok Sample.shirt) Cases.model
             Cases.Error_stack Sample.catalog)
          (Sample.envelope (VString "enabled")))
  = Some {| status := 200;
            payload := VObject [("productId", VString "p-1");
                                ("imageUrl", VString "https://x/img.jpg");
                                ("description", VString "A beautiful cotton shirt.");
                                ("productAnalysis", ImageData_to_value Sample.shirt);
                                ("commerceToolsUpdate", body Sample.updated)] |}.
Proof.
  apply (controller_stores_the_description_it_returns Sample.rt
           (Sample.envelope (VString "enabled")) Sample.enabled_event
           (VString "p-1") (VString "https://x/img.jpg")
           (fun _ => Ok Sample.shirt) Cases.model Cases.Error_stack Sample.catalog
           Sample.shirt "A beautiful cotton shirt."
           {| DescriptionGeneration.response_text := Ok "A beautiful cotton shirt." |}
           (VNumber 1) Sample.updated).
  - exists "enabled". split; [|reflexivity].
    exists (VObject [("data", VString "enabled")]).
    split; [reflexivity|]. split; [reflexivity|discriminate].
  - repeat split; reflexivity.
  - reflexivity.
  - reflexivity.
  - reflexivity.
  - reflexivity.
  - reflexivity.
  - reflexivity.
Defined.

Lemma standalone_stores_the_description_it_returns_witness :
  sent (Monolith.post Sample.rt
          (standalone_services Cases.annotateImage Cases.chat Sample.catalog)
          (Sample.envelope (VString "legacy")))
  = Some {| status := 200;
            payload := VObject [("productId", VString "p-1");
                                ("imageUrl", VString "https://x/img.jpg");
                                ("description", VString "A beautiful cotton shirt.");
                                ("imageAnalysis", ImageData_to_value Cases.rich_data);
                                ("commerceToolsUpdate", body Sample.updated)] |}.
Proof.
  apply (standalone_stores_the_description_it_returns Sample.rt
           (Sample.envelope (VString "legacy")) Sample.legacy_enabled_event
           (VString "p-1") (VString "https://x/img.jpg")
           Cases.annotateImage Cases.chat Sample.catalog
           Cases.rich Cases.rich_data (Cases.answer (Some "A beautiful cotton shirt."))
           "A beautiful cotton shirt." (VNumber 1) Sample.updated).
  - exists "legacy". split; [|reflexivity].
    exists (VObject [("data", VString "legacy")]).
    split; [reflexivity|]. split; [reflexivity|discriminate].
  - repeat split; reflexivity.
  - reflexivity.
  - exists "p-1". reflexivity.
  - exists "https://x/img.jpg". reflexivity.
  - reflexivity.
  - reflexivity.
  - reflexivity.
  - reflexivity.
  - discriminate.
  - reflexivity.
  - reflexivity.
  - exists "[object Object]". reflexivity.
Defined.
